(** * bcpandas: the credential object and the [to_sql] / [read_sql] pipelines

    A shallow embedding of [bcpandas/main.py].  Python code that touches the
    file system, the logger or an external collaborator is written in a small
    state-and-exception monad over a [World]: the files, and the trace of
    everything the code did to the outside (log lines, collaborator calls,
    file operations), in order.  Python strings are Rocq strings (one
    character per code point, code points below 256). *)

From stdpp Require Import gmap strings list fin_maps pretty.
From Stdlib Require Import ZArith Ascii.

Local Open Scope string_scope.
Local Open Scope Z_scope.

(** ** Python runtime: exceptions, outcomes, the world *)

(** The exceptions that can travel through [main.py]. *)
Inductive exn : Type :=
  | AssertionError (msg : string)
  | ValueError (msg : string)
  | NotImplementedError
  | AttributeError (msg : string)
  | FileNotFoundError (path : string)
  | CsvError (msg : string)
  | ParserError
  | SchemaError
  | UnsupportedTypeError (msg : string)
  | BulkCopyError (output : string) (code : Z)
  | ExternalError (msg : string).

Inductive outcome (A : Type) : Type :=
  | Return (a : A)
  | Raise (e : exn).
Arguments Return {A} a.
Arguments Raise {A} e.

(** What a Python attribute of a credential object can hold. *)
Inductive attr : Type :=
  | ANone
  | AStr (s : string)
  | ABool (b : bool).

(** An instance [__dict__]: attribute names with their values, in insertion
    order (the order [__repr__] iterates in). *)
Definition pyobject : Type := list (string * attr).

(** A cell of a dataset.  [CInt z] is the whole number [z], whether pandas
    holds it as int64, as uint64 or as a float64 of that value; cells with a
    fractional part are outside the embedding. *)
Inductive cell : Type :=
  | CInt (z : Z)
  | CBool (b : bool)
  | CStr (s : string)
  | CNaN.

(** A [pandas.DataFrame]: the row labels and the ordered, named columns. *)
Record DataFrame : Type := {
  df_index : list cell;
  df_columns : list (string * list cell)
}.

(** One invocation of the bulk-copy helper, as [main.py] describes it. *)
Record bcp_call : Type := {
  bc_sql_item : string;
  bc_direction : string;
  bc_flat_file : string;
  bc_format_file_path : option string;
  bc_creds : pyobject;
  bc_sql_type : string;
  bc_schema : string;
  bc_batch_size : option Z
}.

Record sqlcmd_call : Type := {
  sc_command : string;
  sc_server : attr;
  sc_database : attr;
  sc_username : attr;
  sc_password : attr
}.

(** Everything observable outside the process: log lines, what is asked of
    the collaborators, and every operation on a file (the attempt counts,
    whether or not the file is there). *)
Inductive event : Type :=
  | Log (level msg : string)
  | Connect (conn_str : string)
  | Query (sql : string)
  | RunBcp (call : bcp_call)
  | RunSqlcmd (call : sqlcmd_call)
  | CreateFile (path : string)
  | WriteFile (path : string)
  | ReadFile (path : string)
  | RemoveFile (path : string).

Record World : Type := {
  files : gmap string string;
  trace : list event
}.

Definition M (A : Type) : Type := World -> outcome A * World.

Definition ret {A} (a : A) : M A := fun w => (Return a, w).

Definition raise {A} (e : exn) : M A := fun w => (Raise e, w).

Definition bind {A B} (c : M A) (k : A -> M B) : M B :=
  fun w =>
    match c w with
    | (Return a, w1) => k a w1
    | (Raise e, w1) => (Raise e, w1)
    end.

Notation "'let*' x ':=' c 'in' k" := (bind c (fun x => k))
  (at level 10, x name, c at level 100, k at level 200).
Notation "c1 ';;' c2" := (bind c1 (fun _ => c2))
  (at level 100, c2 at level 200, right associativity).

(** [try: body finally: fin].  The final block always runs; an exception it
    raises replaces whatever the body produced. *)
Definition try_finally {A} (body : M A) (fin : M unit) : M A :=
  fun w =>
    let (r, w1) := body w in
    match fin w1 with
    | (Return _, w2) => (r, w2)
    | (Raise e, w2) => (Raise e, w2)
    end.

Definition lift_outcome {A} (o : outcome A) : M A := fun w => (o, w).

Definition emit (e : event) : M unit :=
  fun w => (Return tt, {| files := files w; trace := trace w ++ [e] |}).

Definition logger_info (msg : string) : M unit := emit (Log "INFO" msg).
Definition logger_debug (msg : string) : M unit := emit (Log "DEBUG" msg).

Definition py_assert (b : bool) (msg : string) : M unit :=
  if b then ret tt else raise (AssertionError msg).

(** ** Strings *)

(** [needle in hay] on Python strings. *)
Fixpoint py_in (needle hay : string) : bool :=
  String.prefix needle hay ||
  match hay with
  | EmptyString => false
  | String _ rest => py_in needle rest
  end.

Definition str_in_list (s : string) (l : list string) : bool :=
  existsb (String.eqb s) l.

Definition hexdigit (n : N) : ascii :=
  match String.get (N.to_nat n) "0123456789abcdef" with
  | Some c => c
  | None => "0"%char
  end.

(** Code points that [repr] writes as a [\xhh] escape: the ASCII controls and
    DEL, and the Latin-1 code points that are not printable (C1 controls,
    no-break space, soft hyphen). *)
Definition needs_hex_escape (c : ascii) : bool :=
  let n := N_of_ascii c in
  ((n <? 32) || (n =? 127) || ((128 <=? n) && (n <=? 160)) || (n =? 173))%N.

Definition repr_char (quote c : ascii) : string :=
  if Ascii.eqb c quote || Ascii.eqb c "\"%char then String "\"%char (String c "")
  else if Ascii.eqb c "009"%char then "\t"
  else if Ascii.eqb c "010"%char then "\n"
  else if Ascii.eqb c "013"%char then "\r"
  else if needs_hex_escape c then
    String "\"%char (String "x"%char
      (String (hexdigit (N_of_ascii c / 16)) (String (hexdigit (N_of_ascii c mod 16)) "")))
  else String c "".

Fixpoint repr_body (quote : ascii) (s : string) : string :=
  match s with
  | EmptyString => ""
  | String c rest => repr_char quote c ++ repr_body quote rest
  end.

Definition apostrophe : ascii := "039"%char.
Definition dquote : ascii := "034"%char.

(** [repr] of a [str]: single quotes, unless the text has a single quote and
    no double quote. *)
Definition py_repr_str (s : string) : string :=
  let quote :=
    if py_in (String apostrophe "") s && negb (py_in (String dquote "") s)
    then dquote else apostrophe in
  String quote (repr_body quote s ++ String quote "").

Definition py_repr (v : attr) : string :=
  match v with
  | ANone => "None"
  | AStr s => py_repr_str s
  | ABool true => "True"
  | ABool false => "False"
  end.

(** [str(v)], as an f-string placeholder [{v}] formats it. *)
Definition py_str (v : attr) : string :=
  match v with
  | ANone => "None"
  | AStr s => s
  | ABool true => "True"
  | ABool false => "False"
  end.

(** An argument documented as [str] or [None], as a Python value. *)
Definition of_arg (x : option string) : attr :=
  match x with
  | Some s => AStr s
  | None => ANone
  end.

(** Truth value of a [str] or [None] argument. *)
Definition truthy (x : option string) : bool :=
  match x with
  | Some s => negb (String.eqb s "")
  | None => false
  end.

Fixpoint join (sep : string) (l : list string) : string :=
  match l with
  | [] => ""
  | [x] => x
  | x :: rest => x ++ sep ++ join sep rest
  end.

(** ** Attribute access on instances *)

Fixpoint lookup_attr (name : string) (o : pyobject) : option attr :=
  match o with
  | [] => None
  | (k, v) :: rest => if String.eqb k name then Some v else lookup_attr name rest
  end.

Definition hasattr (o : pyobject) (name : string) : bool :=
  match lookup_attr name o with
  | Some _ => true
  | None => false
  end.

Fixpoint setattr (o : pyobject) (name : string) (v : attr) : pyobject :=
  match o with
  | [] => [(name, v)]
  | (k, v0) :: rest =>
      if String.eqb k name then (k, v) :: rest else (k, v0) :: setattr rest name v
  end.

Definition getattr (cls : string) (o : pyobject) (name : string) : M attr :=
  match lookup_attr name o with
  | Some v => ret v
  | None =>
      raise (AttributeError ("'" ++ cls ++ "' object has no attribute '" ++ name ++ "'"))
  end.

(** ** class SqlCreds *)

Definition tab : string := String "009"%char "".

(** [SqlCreds.__repr__] *)
Definition SqlCreds_repr (self : pyobject) : string :=
  let clsName := "SqlCreds" in
  let kwargs :=
    join ", "
      (map (fun kv => fst kv ++ "=" ++ py_repr (snd kv))
         (List.filter (fun kv => negb (String.eqb (fst kv) "password")) self)) in
  let kwargs :=
    if hasattr self "password" then kwargs ++ ", password=[REDACTED]" else kwargs in
  clsName ++ "(" ++ kwargs ++ ")".

(** [SqlCreds.__str__ = __repr__] *)
Definition SqlCreds_str : pyobject -> string := SqlCreds_repr.

(** [SqlCreds.__init__] *)
Definition SqlCreds_init (server database username password : option string)
  : M pyobject :=
  if negb (truthy server) || negb (truthy database) then
    raise (ValueError ("Server and database can't be None, you passed "
                         ++ py_str (of_arg server) ++ ", " ++ py_str (of_arg database)))
  else
    let self := setattr [] "server" (of_arg server) in
    let self := setattr self "database" (of_arg database) in
    let self :=
      if truthy username && truthy password then
        let self := setattr self "username" (of_arg username) in
        let self := setattr self "password" (of_arg password) in
        setattr self "with_krb_auth" (ABool false)
      else
        setattr self "with_krb_auth" (ABool true) in
    logger_info ("Created creds:" ++ tab ++ SqlCreds_str self);;
    ret self.

(** ** constants.py *)

(** Modelled from the spec: [constants.DELIMITER] is not among the sources.
    The scenarios of §8 give the shared field delimiter as [|]. *)
Definition DELIMITER : ascii := "|"%char.

(** Modelled from the spec: [constants.QUOTECHAR] is not among the sources.
    §6: fields are double-quoted, the quote doubled inside. *)
Definition QUOTECHAR : ascii := dquote.

(** Modelled from the spec: [constants.NEWLINE] is not among the sources.
    The scenarios of §8 give the record terminator as a line feed. *)
Definition NEWLINE : string := String "010"%char "".

(** Modelled from the spec: [constants.IN] and [constants.OUT] are not among
    the sources.  §3: the direction of a bulk copy is in or out. *)
Definition IN : string := "in".
Definition OUT : string := "out".

(** Modelled from the spec: [constants.TABLE], [constants.VIEW] and
    [constants.SQL_TYPES] are not among the sources.  §4.6: the object kind
    is table or view. *)
Definition TABLE : string := "table".
Definition VIEW : string := "view".
Definition SQL_TYPES : list string := [TABLE; VIEW].

(** Modelled from the spec: [constants.IF_EXISTS_OPTIONS] is not among the
    sources.  §4.6: the existence policy is fail, replace or append. *)
Definition IF_EXISTS_OPTIONS : list string := ["fail"; "replace"; "append"].

(** ** The file system *)

Definition write_file (path txt : string) : M unit :=
  fun w =>
    (Return tt,
     {| files := <[path := txt]> (files w); trace := trace w ++ [WriteFile path] |}).

Definition read_file (path : string) : M string :=
  fun w =>
    let w1 := {| files := files w; trace := trace w ++ [ReadFile path] |} in
    match files w !! path with
    | Some txt => (Return txt, w1)
    | None => (Raise (FileNotFoundError path), w1)
    end.

(** [os.remove] *)
Definition os_remove (path : string) : M unit :=
  fun w =>
    match files w !! path with
    | Some _ =>
        (Return tt,
         {| files := delete path (files w); trace := trace w ++ [RemoveFile path] |})
    | None =>
        (Raise (FileNotFoundError path),
         {| files := files w; trace := trace w ++ [RemoveFile path] |})
    end.

(** ** pandas: writing delimited text ([DataFrame.to_csv] over [csv.writer]) *)

Inductive quoting_mode : Type :=
  | QUOTE_MINIMAL
  | QUOTE_ALL
  | QUOTE_NONE.

(** The keyword arguments [to_sql] passes to [DataFrame.to_csv]. *)
Record to_csv_kwargs : Type := {
  sep : ascii;
  header : bool;
  index : bool;
  quoting : quoting_mode;
  quotechar : ascii;
  line_terminator : string;
  doublequote : bool;
  escapechar : option ascii
}.

Fixpoint char_in (c : ascii) (s : string) : bool :=
  match s with
  | EmptyString => false
  | String c' rest => Ascii.eqb c c' || char_in c rest
  end.

Definition is_escapechar (k : to_csv_kwargs) (c : ascii) : bool :=
  match escapechar k with
  | Some e => Ascii.eqb c e
  | None => false
  end.

Definition csv_escaped (k : to_csv_kwargs) (c : ascii) : outcome (string * bool) :=
  match escapechar k with
  | Some e => Return (String e (String c ""), false)
  | None => Raise (CsvError "need to escape, but no escapechar set")
  end.

(** One character of a field: the text it contributes, and whether it forces
    the field into quotes. *)
Definition csv_write_char (k : to_csv_kwargs) (c : ascii) : outcome (string * bool) :=
  if Ascii.eqb c (sep k) || is_escapechar k c || Ascii.eqb c (quotechar k)
     || char_in c (line_terminator k)
  then
    match quoting k with
    | QUOTE_NONE => csv_escaped k c
    | _ =>
        if Ascii.eqb c (quotechar k) then
          if doublequote k then Return (String (quotechar k) (String c ""), true)
          else csv_escaped k c
        else if is_escapechar k c then csv_escaped k c
        else Return (String c "", true)
    end
  else Return (String c "", false).

Fixpoint csv_write_chars (k : to_csv_kwargs) (s : string) : outcome (string * bool) :=
  match s with
  | EmptyString => Return ("", false)
  | String c rest =>
      match csv_write_char k c with
      | Raise e => Raise e
      | Return (txt, q) =>
          match csv_write_chars k rest with
          | Raise e => Raise e
          | Return (txt', q') => Return (txt ++ txt', q || q')
          end
      end
  end.

Definition csv_write_field (k : to_csv_kwargs) (s : string) : outcome string :=
  match csv_write_chars k s with
  | Raise e => Raise e
  | Return (txt, q) =>
      let quoted := match quoting k with QUOTE_ALL => true | _ => q end in
      Return (if quoted then String (quotechar k) (txt ++ String (quotechar k) "") else txt)
  end.

Fixpoint csv_write_fields (k : to_csv_kwargs) (l : list string) : outcome (list string) :=
  match l with
  | [] => Return []
  | f :: rest =>
      match csv_write_field k f with
      | Raise e => Raise e
      | Return t =>
          match csv_write_fields k rest with
          | Raise e => Raise e
          | Return ts => Return (t :: ts)
          end
      end
  end.

(** [writer.writerow]: a record that would come out empty from a single
    field is written as an empty quoted field. *)
Definition csv_writerow (k : to_csv_kwargs) (l : list string) : outcome string :=
  match csv_write_fields k l with
  | Raise e => Raise e
  | Return ts =>
      let rec := join (String (sep k) "") ts in
      match l, rec with
      | [_], EmptyString =>
          match quoting k with
          | QUOTE_NONE => Raise (CsvError "single empty field record must be quoted")
          | _ => Return (String (quotechar k) (String (quotechar k) (line_terminator k)))
          end
      | _, _ => Return (rec ++ line_terminator k)
      end
  end.

(** How a cell is written: [str] of the value, the empty text for a missing
    value. *)
Definition cell_text (c : cell) : string :=
  match c with
  | CInt z => pretty z
  | CBool true => "True"
  | CBool false => "False"
  | CStr s => s
  | CNaN => ""
  end.

Definition nrows (df : DataFrame) : nat := length (df_index df).

Definition row_cells (df : DataFrame) (i : nat) : list cell :=
  map (fun col => nth i (snd col) CNaN) (df_columns df).

(** The fields of data row [i]: the row label first when [index] is set. *)
Definition row_fields (k : to_csv_kwargs) (df : DataFrame) (i : nat) : list string :=
  (if index k then [cell_text (nth i (df_index df) CNaN)] else [])
    ++ map cell_text (row_cells df i).

Definition header_fields (k : to_csv_kwargs) (df : DataFrame) : list string :=
  (if index k then [""] else []) ++ map fst (df_columns df).

Fixpoint csv_writerows (k : to_csv_kwargs) (rows : list (list string)) : outcome string :=
  match rows with
  | [] => Return ""
  | r :: rest =>
      match csv_writerow k r with
      | Raise e => Raise e
      | Return t =>
          match csv_writerows k rest with
          | Raise e => Raise e
          | Return ts => Return (t ++ ts)
          end
      end
  end.

(** The text [DataFrame.to_csv] produces. *)
Definition to_csv_text (k : to_csv_kwargs) (df : DataFrame) : outcome string :=
  csv_writerows k
    ((if header k then [header_fields k df] else [])
       ++ map (row_fields k df) (seq 0 (nrows df))).

(** [df.to_csv(path_or_buf=path, ...)] *)
Definition df_to_csv (df : DataFrame) (path : string) (k : to_csv_kwargs) : M unit :=
  let* txt := lift_outcome (to_csv_text k df) in
  write_file path txt.

(** ** pandas: reading delimited text ([read_csv], C tokenizer)

    The tokenizer is the state machine of the C parser with its defaults:
    records end at LF, CR or CRLF, blank and whitespace-only lines are
    skipped, a field may be wrapped in double quotes with the quote doubled
    inside. *)

Inductive pstate : Type :=
  | START_RECORD
  | START_FIELD
  | IN_FIELD
  | IN_QUOTED_FIELD
  | QUOTE_IN_QUOTED_FIELD
  | EAT_CRNL
  | EAT_CRNL_NOP
  | WHITESPACE_LINE.

Record tokenizer : Type := {
  state : pstate;
  field : string;
  record : list string;
  lines : list (list string)
}.

Definition LF : ascii := "010"%char.
Definition CR : ascii := "013"%char.

Definition goto (st : pstate) (t : tokenizer) : tokenizer :=
  {| state := st; field := field t; record := record t; lines := lines t |}.

Definition push_char (c : ascii) (t : tokenizer) : tokenizer :=
  {| state := state t; field := field t ++ String c ""; record := record t;
     lines := lines t |}.

Definition drop_field (t : tokenizer) : tokenizer :=
  {| state := state t; field := ""; record := record t; lines := lines t |}.

Definition end_field (t : tokenizer) : tokenizer :=
  {| state := state t; field := ""; record := record t ++ [field t];
     lines := lines t |}.

Definition end_line (t : tokenizer) : tokenizer :=
  {| state := state t; field := field t; record := [];
     lines := lines t ++ [record t] |}.

Definition is_whitespace (c : ascii) : bool :=
  Ascii.eqb c " "%char || Ascii.eqb c "009"%char.

Definition step_start_field (delim quote c : ascii) (t : tokenizer) : tokenizer :=
  if Ascii.eqb c LF then goto START_RECORD (end_line (end_field t))
  else if Ascii.eqb c CR then goto EAT_CRNL (end_field t)
  else if Ascii.eqb c quote then goto IN_QUOTED_FIELD t
  else if Ascii.eqb c delim then goto START_FIELD (end_field t)
  else goto IN_FIELD (push_char c t).

Definition step_in_field (delim c : ascii) (t : tokenizer) : tokenizer :=
  if Ascii.eqb c LF then goto START_RECORD (end_line (end_field t))
  else if Ascii.eqb c CR then goto EAT_CRNL (end_field t)
  else if Ascii.eqb c delim then goto START_FIELD (end_field t)
  else goto IN_FIELD (push_char c t).

Definition step_start_record (delim quote c : ascii) (t : tokenizer) : tokenizer :=
  if Ascii.eqb c LF then goto START_RECORD t
  else if Ascii.eqb c CR then goto EAT_CRNL_NOP t
  else if is_whitespace c && negb (Ascii.eqb c delim) then
    goto WHITESPACE_LINE (push_char c t)
  else step_start_field delim quote c t.

Definition tokenizer_step (delim quote c : ascii) (t : tokenizer) : tokenizer :=
  match state t with
  | START_RECORD => step_start_record delim quote c t
  | START_FIELD => step_start_field delim quote c t
  | IN_FIELD => step_in_field delim c t
  | IN_QUOTED_FIELD =>
      if Ascii.eqb c quote then goto QUOTE_IN_QUOTED_FIELD t else push_char c t
  | QUOTE_IN_QUOTED_FIELD =>
      if Ascii.eqb c quote then goto IN_QUOTED_FIELD (push_char c t)
      else if Ascii.eqb c delim then goto START_FIELD (end_field t)
      else if Ascii.eqb c LF then goto START_RECORD (end_line (end_field t))
      else if Ascii.eqb c CR then goto EAT_CRNL (end_field t)
      else goto IN_FIELD (push_char c t)
  | EAT_CRNL =>
      if Ascii.eqb c LF then goto START_RECORD (end_line t)
      else if Ascii.eqb c delim then goto START_FIELD (end_field (end_line t))
      else step_start_record delim quote c (goto START_RECORD (end_line t))
  | EAT_CRNL_NOP =>
      if Ascii.eqb c LF || Ascii.eqb c delim then goto START_RECORD t
      else step_start_record delim quote c (goto START_RECORD t)
  | WHITESPACE_LINE =>
      if Ascii.eqb c LF then goto START_RECORD (drop_field t)
      else if Ascii.eqb c CR then goto EAT_CRNL_NOP (drop_field t)
      else if is_whitespace c && negb (Ascii.eqb c delim) then push_char c t
      else step_in_field delim c t
  end.

Fixpoint tokenize (delim quote : ascii) (s : string) (t : tokenizer) : tokenizer :=
  match s with
  | EmptyString => t
  | String c rest => tokenize delim quote rest (tokenizer_step delim quote c t)
  end.

(** What the parser does with the last record when the data ends. *)
Definition handle_eof (t : tokenizer) : outcome (list (list string)) :=
  match state t with
  | START_RECORD | WHITESPACE_LINE | EAT_CRNL_NOP => Return (lines t)
  | IN_QUOTED_FIELD => Raise ParserError
  | IN_FIELD | START_FIELD | QUOTE_IN_QUOTED_FIELD =>
      Return (lines (end_line (end_field t)))
  | EAT_CRNL => Return (lines (end_line t))
  end.

Definition tokenize_all (delim quote : ascii) (s : string) : outcome (list (list string)) :=
  handle_eof (tokenize delim quote s
                {| state := START_RECORD; field := ""; record := []; lines := [] |}).

(** The texts [read_csv] takes for a missing value. *)
Definition NA_VALUES : list string :=
  [""; "#N/A"; "#N/A N/A"; "#NA"; "-1.#IND"; "-1.#QNAN"; "-NaN"; "-nan";
   "1.#IND"; "1.#QNAN"; "N/A"; "NA"; "NULL"; "NaN"; "n/a"; "nan"; "null"].

Definition is_space (c : ascii) : bool :=
  let n := N_of_ascii c in ((n =? 32) || ((9 <=? n) && (n <=? 13)))%N.

Definition is_digit (c : ascii) : bool :=
  let n := N_of_ascii c in ((48 <=? n) && (n <=? 57))%N.

Fixpoint skip_spaces (s : string) : string :=
  match s with
  | String c rest => if is_space c then skip_spaces rest else s
  | EmptyString => s
  end.

Fixpoint parse_digits (acc : Z) (s : string) : Z * string :=
  match s with
  | String c rest =>
      if is_digit c then parse_digits (10 * acc + (Z.of_N (N_of_ascii c) - 48)) rest
      else (acc, s)
  | EmptyString => (acc, s)
  end.

(** An integer literal: blanks, an optional sign, digits, blanks. *)
Definition parse_integer (s : string) : option Z :=
  let p := skip_spaces s in
  let '(neg, p) :=
    match p with
    | String c rest =>
        if Ascii.eqb c "-"%char then (true, rest)
        else if Ascii.eqb c "+"%char then (false, rest)
        else (false, p)
    | EmptyString => (false, p)
    end in
  match p with
  | String c _ =>
      if is_digit c then
        let '(n, rest) := parse_digits 0 p in
        match skip_spaces rest with
        | EmptyString => Some (if neg : bool then - n else n)
        | String _ _ => None
        end
      else None
  | EmptyString => None
  end.

Definition in_int64 (v : Z) : bool := (- 2 ^ 63 <=? v) && (v <? 2 ^ 63).
Definition in_uint64 (v : Z) : bool := (0 <=? v) && (v <? 2 ^ 64).

(** The whole numbers a float64 holds exactly. *)
Definition in_float64_exact (v : Z) : bool := (- 2 ^ 53 <=? v) && (v <=? 2 ^ 53).

(** An int64 literal. *)
Definition parse_int (s : string) : option Z :=
  match parse_integer s with
  | Some v => if in_int64 v then Some v else None
  | None => None
  end.

Definition integer_in (range : Z -> bool) (s : string) : bool :=
  match parse_integer s with
  | Some v => range v
  | None => false
  end.

Definition parse_bool (s : string) : option bool :=
  if str_in_list s ["True"; "TRUE"; "true"] then Some true
  else if str_in_list s ["False"; "FALSE"; "false"] then Some false
  else None.

Definition is_na (s : string) : bool := str_in_list s NA_VALUES.

Definition number_cell (f : string) : cell :=
  match parse_integer f with
  | Some z => CInt z
  | None => CNaN
  end.

(** Type inference for one column, in the order pandas tries: int64; uint64;
    float64; bool; text.  Of the float64 columns only those of whole numbers
    with gaps are followed (the numbers a float64 holds exactly, missing
    values as NaN); a column with fractions, exponents or larger numbers is
    outside the embedding and its fields are left as text. *)
Definition infer_column (fields : list string) : list cell :=
  if forallb (integer_in in_int64) fields then map number_cell fields
  else if forallb (integer_in in_uint64) fields then map number_cell fields
  else if forallb (fun f => is_na f || integer_in in_float64_exact f) fields then
    map number_cell fields
  else if forallb (fun f => bool_decide (is_Some (parse_bool f))) fields then
    map (fun f => match parse_bool f with Some b => CBool b | None => CNaN end) fields
  else
    map (fun f => if is_na f then CNaN else CStr f) fields.

(** The keyword arguments [read_sql] passes to [read_csv].  [rc_sep = None]
    is an argument left out (pandas then separates at commas); [rc_header =
    None] is [header=None], no header row; [rc_index_col = None] is
    [index_col=False], no column holds the row labels. *)
Record read_csv_kwargs : Type := {
  rc_sep : option ascii;
  rc_header : option nat;
  rc_names : list string;
  rc_index_col : option nat
}.

(** A record cut or padded to the number of names. *)
Definition fit_record (n : nat) (r : list string) : list string :=
  take n (r ++ replicate (n - length r) "").

Definition column_fields (rows : list (list string)) (i : nat) : list string :=
  map (fun r => nth i r "") rows.

Definition range_index (n : nat) : list cell :=
  map (fun i => CInt (Z.of_nat i)) (seq 0 n).

Definition remove_nth {A} (i : nat) (l : list A) : list A :=
  take i l ++ drop (S i) l.

Fixpoint has_duplicates (l : list string) : bool :=
  match l with
  | [] => false
  | x :: rest => str_in_list x rest || has_duplicates rest
  end.

(** The check [read_csv] makes on [names] before it opens the file. *)
Definition validate_names (names : list string) : outcome unit :=
  if has_duplicates names then Raise (ValueError "Duplicate names are not allowed.")
  else Return tt.

(** The tokenizer's field count: the first record sets, with the names, the
    number of fields expected; a later record with more fields is an error
    ("Expected n fields in line l, saw m"), one with fewer is padded. *)
Definition check_field_counts (names : list string) (rows : list (list string))
  : outcome unit :=
  match rows with
  | [] => Return tt
  | first :: rest =>
      if existsb (fun r => Nat.ltb (Nat.max (length first) (length names)) (length r)) rest
      then Raise ParserError
      else Return tt
  end.

(** [read_csv] with explicit [names]: a header row, when one is announced,
    is dropped in favour of the names. *)
Definition read_csv_text (k : read_csv_kwargs) (txt : string) : outcome DataFrame :=
  let delim := match rc_sep k with Some c => c | None => ","%char end in
  match validate_names (rc_names k) with
  | Raise e => Raise e
  | Return _ =>
      match tokenize_all delim dquote txt with
      | Raise e => Raise e
      | Return rows =>
          let rows := match rc_header k with Some h => drop (S h) rows | None => rows end in
          match check_field_counts (rc_names k) rows with
          | Raise e => Raise e
          | Return _ =>
              let rows := map (fit_record (length (rc_names k))) rows in
              let columns :=
                imap (fun i name => (name, infer_column (column_fields rows i)))
                     (rc_names k) in
              match rc_index_col k with
              | None =>
                  Return {| df_index := range_index (length rows); df_columns := columns |}
              | Some i =>
                  Return {| df_index := infer_column (column_fields rows i);
                            df_columns := remove_nth i columns |}
              end
          end
      end
  end.

(** [pd.read_csv(filepath_or_buffer=path, ...)] *)
Definition pd_read_csv (path : string) (k : read_csv_kwargs) : M DataFrame :=
  lift_outcome (validate_names (rc_names k));;
  let* txt := read_file path in
  lift_outcome (read_csv_text k txt).


(** ** External collaborators

    The bulk-copy and query tools, the database and the helpers of [utils.py]
    whose text is not fixed by the spec. *)
Record Env : Type := {
  (** the descriptor text of a dataset with at least one column *)
  format_file_text : DataFrame -> string;
  (** the CREATE statement for a dataset, table name and schema *)
  sql_create_statement : DataFrame -> string -> string -> outcome string;
  (** what running the query tool on a statement comes to *)
  sqlcmd_result : sqlcmd_call -> outcome unit;
  (** the bulk-copy process: exit status, captured output, and the data it
      writes to the flat file in the outbound direction *)
  bcp_process : bcp_call -> gmap string string -> Z * string * string;
  (** opening a connection from a connection string *)
  odbc_connect : string -> outcome unit;
  (** the column names a query yields on a connection *)
  query_columns : string -> string -> outcome (list string)
}.

(** ** utils.py *)

(** Modelled from the spec: [utils.get_temp_file] is not among the sources.
    §4.4: a path to a new, uniquely named, empty file, owned by the caller. *)
Definition get_temp_file : M string :=
  fun w =>
    let path := fresh (dom (files w)) in
    (Return path,
     {| files := <[path := ""]> (files w); trace := trace w ++ [CreateFile path] |}).

(** Modelled from the spec: [utils.build_format_file] is not among the
    sources.  §4.2: a deterministic text for the ordered schema, and a
    SchemaError for a dataset with zero columns. *)
Definition build_format_file (env : Env) (df : DataFrame) : outcome string :=
  match df_columns df with
  | [] => Raise SchemaError
  | _ :: _ => Return (format_file_text env df)
  end.

(** Modelled from the spec: [utils._get_sql_create_statement] is not among
    the sources.  §4.3: the statement for the dataset's schema, or an
    UnsupportedTypeError. *)
Definition _get_sql_create_statement (env : Env) (df : DataFrame)
    (table_name schema : string) : outcome string :=
  sql_create_statement env df table_name schema.

(** Modelled from the spec: [utils.sqlcmd] is not among the sources.  §6:
    the statement is executed against the destination. *)
Definition sqlcmd (env : Env) (call : sqlcmd_call) : M unit :=
  emit (RunSqlcmd call);;
  lift_outcome (sqlcmd_result env call).

(** Modelled from the spec: [utils.bcp] is not among the sources.  §4.5: the
    process runs once, synchronously; a non-zero exit status is a
    BulkCopyError carrying the captured output and the status. *)
Definition bcp (env : Env) (call : bcp_call) : M unit :=
  emit (RunBcp call);;
  fun w =>
    let '(status, output, data) := bcp_process env call (files w) in
    let w1 :=
      if String.eqb (bc_direction call) OUT
      then {| files := <[bc_flat_file call := data]> (files w); trace := trace w |}
      else w in
    if status =? 0 then (Return tt, w1) else (Raise (BulkCopyError output status), w1).

(** [pyodbc.connect] *)
Definition pyodbc_connect (env : Env) (conn_str : string) : M string :=
  emit (Connect conn_str);;
  lift_outcome (odbc_connect env conn_str);;
  ret conn_str.

(** [pd.read_sql_query(sql=..., con=...).columns] *)
Definition pd_read_sql_query_columns (env : Env) (sql con : string) : M (list string) :=
  emit (Query sql);;
  lift_outcome (query_columns env con sql).

(** ** main.py: to_sql *)

Definition to_sql (env : Env) (df : DataFrame) (table_name : string) (creds : pyobject)
    (sql_type schema : string) (index : bool) (if_exists : string)
    (batch_size : option Z) (debug : bool) : M unit :=
  (* validation *)
  py_assert (str_in_list sql_type SQL_TYPES) "";;
  py_assert (str_in_list if_exists IF_EXISTS_OPTIONS) "";;
  (* save to temp path *)
  let* csv_file_path := get_temp_file in
  df_to_csv df csv_file_path
    {| sep := DELIMITER;
       header := false;
       index := false;
       quoting := QUOTE_MINIMAL;
       quotechar := QUOTECHAR;
       line_terminator := NEWLINE;
       doublequote := true;
       escapechar := None |};;
  logger_debug ("Saved dataframe to temp CSV file at " ++ csv_file_path);;
  (* build format file *)
  let* fmt_file_path := get_temp_file in
  let* fmt_file_txt := lift_outcome (build_format_file env df) in
  write_file fmt_file_path fmt_file_txt;;
  logger_debug ("Created BCP format file at " ++ fmt_file_path);;
  try_finally
    ((if String.eqb if_exists "fail" then
        raise NotImplementedError
      else if String.eqb if_exists "replace" then
        let* command := lift_outcome (_get_sql_create_statement env df table_name schema) in
        let* server := getattr "SqlCreds" creds "server" in
        let* database := getattr "SqlCreds" creds "database" in
        let* username := getattr "SqlCreds" creds "username" in
        let* password := getattr "SqlCreds" creds "password" in
        sqlcmd env {| sc_command := command;
                      sc_server := server;
                      sc_database := database;
                      sc_username := username;
                      sc_password := password |}
      else if String.eqb if_exists "append" then
        ret tt
      else ret tt);;
     (* either way, BCP data in *)
     bcp env {| bc_sql_item := table_name;
                bc_direction := IN;
                bc_flat_file := csv_file_path;
                bc_format_file_path := Some fmt_file_path;
                bc_creds := creds;
                bc_sql_type := sql_type;
                bc_schema := schema;
                bc_batch_size := batch_size |})
    (if negb debug then
       logger_debug "Deleting temp CSV and format files";;
       os_remove csv_file_path;;
       os_remove fmt_file_path
     else
       logger_debug ("`to_sql` DEBUG mode, not deleting the files. CSV file is at "
                       ++ csv_file_path ++ ", format file is at " ++ fmt_file_path)).

(** ** main.py: read_sql *)

Definition read_sql (env : Env) (table_name : string) (creds : pyobject)
    (sql_type schema : string) (mssql_odbc_driver_version : Z)
    (batch_size : option Z) : M DataFrame :=
  (* check params *)
  py_assert (str_in_list sql_type SQL_TYPES) "";;
  py_assert ((mssql_odbc_driver_version =? 13) || (mssql_odbc_driver_version =? 17))
    "SQL Server ODBC Driver must be either 13 or 17";;
  (* set up objects *)
  if py_in ";" table_name then
    raise (ValueError
      "The SQL item cannot contain the ';' character, it interferes with getting the column names")
  else
    let* server := getattr "SqlCreds" creds "server" in
    let* database := getattr "SqlCreds" creds "database" in
    let* username := getattr "SqlCreds" creds "username" in
    let* password := getattr "SqlCreds" creds "password" in
    let* db_conn :=
      pyodbc_connect env
        ("DRIVER={ODBC Driver " ++ pretty mssql_odbc_driver_version
           ++ " for SQL Server};SERVER=" ++ py_str server ++ ";"
           ++ "DATABASE=" ++ py_str database ++ ";UID=" ++ py_str username
           ++ ";PWD=" ++ py_str password) in
    (* read top 2 rows of query to get the columns *)
    let _from_clause :=
      if str_in_list sql_type [TABLE; VIEW] then table_name
      else "(" ++ table_name ++ ")" in
    let* cols :=
      pd_read_sql_query_columns env
        ("SELECT TOP 2 * FROM " ++ _from_clause ++ " as qry") db_conn in
    let* file_path := get_temp_file in
    try_finally
      (bcp env {| bc_sql_item := table_name;
                  bc_direction := OUT;
                  bc_flat_file := file_path;
                  bc_format_file_path := None;
                  bc_creds := creds;
                  bc_sql_type := sql_type;
                  bc_schema := schema;
                  bc_batch_size := batch_size |};;
       pd_read_csv file_path
         {| rc_sep := None; rc_header := None; rc_names := cols; rc_index_col := None |})
      (os_remove file_path).

(** ** The spec's error taxonomy (§7) *)

Inductive error_kind : Type :=
  | ValidationKind
  | UnsupportedTypeKind
  | SchemaKind
  | BulkCopyKind
  | NotImplementedKind
  | OtherKind.

(** The kind each Python exception stands for: the fail-fast [assert]s and
    the [ValueError]s of [main.py] are the spec's ValidationError. *)
Definition kind_of (e : exn) : error_kind :=
  match e with
  | AssertionError _ | ValueError _ => ValidationKind
  | UnsupportedTypeError _ => UnsupportedTypeKind
  | SchemaError => SchemaKind
  | BulkCopyError _ _ => BulkCopyKind
  | NotImplementedError => NotImplementedKind
  | AttributeError _ | FileNotFoundError _ | CsvError _ | ParserError
  | ExternalError _ => OtherKind
  end.


(** ** Vocabulary for the statements *)

(** The instance dictionaries [SqlCreds.__init__] can build. *)
Definition integrated_dict (server database : option string) : pyobject :=
  [("server", of_arg server); ("database", of_arg database);
   ("with_krb_auth", ABool true)].

Definition password_dict (server database username password : option string) : pyobject :=
  [("server", of_arg server); ("database", of_arg database);
   ("username", of_arg username); ("password", of_arg password);
   ("with_krb_auth", ABool false)].

Definition logged (w : World) (e : event) : World :=
  {| files := files w; trace := trace w ++ [e] |}.

(** The keyword arguments of the [to_csv] call in [to_sql]. *)
Definition flat_file_kwargs : to_csv_kwargs :=
  {| sep := DELIMITER;
     header := false;
     index := false;
     quoting := QUOTE_MINIMAL;
     quotechar := QUOTECHAR;
     line_terminator := NEWLINE;
     doublequote := true;
     escapechar := None |}.

(** The [try] block of [to_sql]. *)
Definition to_sql_try (env : Env) (df : DataFrame) (table_name : string)
    (creds : pyobject) (sql_type schema if_exists : string) (batch_size : option Z)
    (csv_file_path fmt_file_path : string) : M unit :=
  (if String.eqb if_exists "fail" then
     raise NotImplementedError
   else if String.eqb if_exists "replace" then
     let* command := lift_outcome (_get_sql_create_statement env df table_name schema) in
     let* server := getattr "SqlCreds" creds "server" in
     let* database := getattr "SqlCreds" creds "database" in
     let* username := getattr "SqlCreds" creds "username" in
     let* password := getattr "SqlCreds" creds "password" in
     sqlcmd env {| sc_command := command;
                   sc_server := server;
                   sc_database := database;
                   sc_username := username;
                   sc_password := password |}
   else if String.eqb if_exists "append" then
     ret tt
   else ret tt);;
  bcp env {| bc_sql_item := table_name;
             bc_direction := IN;
             bc_flat_file := csv_file_path;
             bc_format_file_path := Some fmt_file_path;
             bc_creds := creds;
             bc_sql_type := sql_type;
             bc_schema := schema;
             bc_batch_size := batch_size |}.

(** The [finally] block of [to_sql]. *)
Definition to_sql_finally (debug : bool) (csv_file_path fmt_file_path : string) : M unit :=
  if negb debug then
    logger_debug "Deleting temp CSV and format files";;
    os_remove csv_file_path;;
    os_remove fmt_file_path
  else
    logger_debug ("`to_sql` DEBUG mode, not deleting the files. CSV file is at "
                    ++ csv_file_path ++ ", format file is at " ++ fmt_file_path).

(** The scratch paths a [to_sql] call gets in world [w], and the world in
    which its [try] block starts. *)
Definition csv_path (w : World) : string := fresh (dom (files w)).

Definition fmt_path (w : World) (txt : string) : string :=
  fresh (dom (<[csv_path w := txt]> (<[csv_path w := ""]> (files w)))).

Definition staged (w : World) (txt fmt : string) : World :=
  {| files :=
       <[fmt_path w txt := fmt]>
         (<[fmt_path w txt := ""]>
            (<[csv_path w := txt]> (<[csv_path w := ""]> (files w))));
     trace :=
       trace w
         ++ [CreateFile (csv_path w);
             WriteFile (csv_path w);
             Log "DEBUG" ("Saved dataframe to temp CSV file at " ++ csv_path w);
             CreateFile (fmt_path w txt);
             WriteFile (fmt_path w txt);
             Log "DEBUG" ("Created BCP format file at " ++ fmt_path w txt)] |}.

Definition is_io (e : event) : bool :=
  match e with
  | Connect _ | Query _ | RunBcp _ | RunSqlcmd _ => true
  | Log _ _ | CreateFile _ | WriteFile _ | ReadFile _ | RemoveFile _ => false
  end.

(** The collaborator events of a world: connections, queries and tool runs,
    without the log lines and the file operations. *)
Definition io_events (w : World) : list event := List.filter is_io (trace w).

Definition no_username : exn :=
  AttributeError "'SqlCreds' object has no attribute 'username'".

(** The connection string [read_sql] builds. *)
Definition connection_string (version : Z) (server database username password : attr)
  : string :=
  "DRIVER={ODBC Driver " ++ pretty version
    ++ " for SQL Server};SERVER=" ++ py_str server ++ ";"
    ++ "DATABASE=" ++ py_str database ++ ";UID=" ++ py_str username
    ++ ";PWD=" ++ py_str password.

(** The bulk-copy invocation of [read_sql] in world [w]. *)
Definition read_sql_call (table_name : string) (creds : pyobject)
    (sql_type schema : string) (batch_size : option Z) (w : World) : bcp_call :=
  {| bc_sql_item := table_name;
     bc_direction := OUT;
     bc_flat_file := csv_path w;
     bc_format_file_path := None;
     bc_creds := creds;
     bc_sql_type := sql_type;
     bc_schema := schema;
     bc_batch_size := batch_size |}.

(** The bulk-copy invocation of [to_sql] in world [w], for the flat-file
    text [txt]. *)
Definition to_sql_call (table_name : string) (creds : pyobject)
    (sql_type schema : string) (batch_size : option Z) (w : World) (txt : string)
  : bcp_call :=
  {| bc_sql_item := table_name;
     bc_direction := IN;
     bc_flat_file := csv_path w;
     bc_format_file_path := Some (fmt_path w txt);
     bc_creds := creds;
     bc_sql_type := sql_type;
     bc_schema := schema;
     bc_batch_size := batch_size |}.

(** The preview query of [read_sql] for a table or view. *)
Definition preview_query (table_name : string) : string :=
  "SELECT TOP 2 * FROM " ++ table_name ++ " as qry".

(** Collaborators whose connection, column discovery and query tool come to
    the given outcomes. *)
Definition outcome_env (connect : outcome unit) (columns : outcome (list string))
    (query_tool : outcome unit) (bcp_status : Z) (bcp_output bcp_data : string) : Env :=
  {| format_file_text := fun _ => "9.0";
     sql_create_statement := fun _ t s => Return ("CREATE TABLE " ++ s ++ "." ++ t);
     sqlcmd_result := fun _ => query_tool;
     bcp_process := fun _ _ => (bcp_status, bcp_output, bcp_data);
     odbc_connect := fun _ => connect;
     query_columns := fun _ _ => columns |}.

(** The query-tool invocation of [to_sql] under the replace policy. *)
Definition replace_call (command : string) (server database username password : attr)
  : sqlcmd_call :=
  {| sc_command := command;
     sc_server := server;
     sc_database := database;
     sc_username := username;
     sc_password := password |}.


(** The tool runs a [to_sql] call can add: none, one inbound bulk copy, one
    query-tool run, or a query-tool run followed by one inbound bulk copy. *)
Definition tool_runs (l : list event) : Prop :=
  l = []
  \/ (exists c, l = [RunBcp c] /\ bc_direction c = IN)
  \/ (exists s, l = [RunSqlcmd s])
  \/ (exists s c, l = [RunSqlcmd s; RunBcp c] /\ bc_direction c = IN).

(** ** Sample data for closed statements *)

Definition w0 : World := {| files := ∅; trace := [] |}.

Definition sample_env (bcp_status : Z) (bcp_output bcp_data : string) : Env :=
  {| format_file_text := fun _ => "9.0";
     sql_create_statement := fun _ t s => Return ("CREATE TABLE " ++ s ++ "." ++ t);
     sqlcmd_result := fun _ => Return tt;
     bcp_process := fun _ _ => (bcp_status, bcp_output, bcp_data);
     odbc_connect := fun _ => Return tt;
     query_columns := fun _ _ => Return ["x"; "y"] |}.

Definition password_creds : pyobject :=
  [("server", AStr "srv"); ("database", AStr "db"); ("username", AStr "sa");
   ("password", AStr "pw"); ("with_krb_auth", ABool false)].

Definition people : DataFrame :=
  {| df_index := [CInt 0; CInt 1];
     df_columns := [("id", [CInt 1; CInt 2]); ("name", [CStr "a"; CStr "b"])] |}.

Definition no_columns : DataFrame := {| df_index := []; df_columns := [] |}.

(** * Properties *)

(** ** Running the monad *)

Lemma bind_Return {A B} (c : M A) (k : A -> M B) w a w1 :
  c w = (Return a, w1) -> bind c k w = k a w1.
Proof. intros H. unfold bind. now rewrite H. Qed.

Lemma bind_Raise {A B} (c : M A) (k : A -> M B) w e w1 :
  c w = (Raise e, w1) -> bind c k w = (Raise e, w1).
Proof. intros H. unfold bind. now rewrite H. Qed.

(** One step of a run: the next command returns, the run goes on in the
    continuation. *)
Ltac mstep := erewrite bind_Return by reflexivity.

(** Traces as one list appended to the trace the run started with. *)
Ltac trace_norm := cbn [files trace]; rewrite <- ?app_assoc; cbn [app].

Lemma str_in_list_elem s l : str_in_list s l = true <-> s ∈ l.
Proof.
  unfold str_in_list. rewrite existsb_exists. split.
  - intros (x & Hx & Heq). apply String.eqb_eq in Heq. subst x.
    now apply list_elem_of_In.
  - intros H. exists s. split; [now apply list_elem_of_In | apply String.eqb_refl].
Qed.

Lemma str_in_list_not_elem s l : s ∉ l -> str_in_list s l = false.
Proof.
  intros H. destruct (str_in_list s l) eqn:E; [|done].
  apply str_in_list_elem in E. contradiction.
Qed.

Lemma prefix_app n b : String.prefix n (n ++ b) = true.
Proof.
  induction n as [|c n IH]; simpl.
  - now destruct b.
  - destruct (ascii_dec c c); [apply IH | contradiction].
Qed.

Lemma py_in_prefix n h : String.prefix n h = true -> py_in n h = true.
Proof. intros H. destruct h; cbn [py_in]; now rewrite H. Qed.

Lemma py_in_app a n b : py_in n (a ++ n ++ b) = true.
Proof.
  induction a as [|c a IH].
  - change ("" ++ n ++ b) with (n ++ b). apply py_in_prefix, prefix_app.
  - change (String c a ++ n ++ b) with (String c (a ++ n ++ b)).
    cbn [py_in]. rewrite IH. apply orb_true_r.
Qed.

(** ** Validation *)

(** C3: a [to_sql] call whose [sql_type] is outside {table, view}, or whose
    [if_exists] is outside {fail, replace, append}, raises an error of the
    validation kind and leaves the world as it was: no scratch file is
    created or written, nothing is logged or invoked. *)
Theorem to_sql_rejects_invalid_arguments
    env df table_name creds sql_type schema index if_exists batch_size debug w :
  sql_type ∉ SQL_TYPES \/ if_exists ∉ IF_EXISTS_OPTIONS ->
  exists e,
    to_sql env df table_name creds sql_type schema index if_exists batch_size debug w
      = (Raise e, w)
    /\ kind_of e = ValidationKind.
Proof.
  intros H. exists (AssertionError ""). split; [|reflexivity].
  unfold to_sql.
  destruct (str_in_list sql_type SQL_TYPES) eqn:E1.
  - destruct H as [H|H]; [apply str_in_list_elem in E1; contradiction|].
    apply str_in_list_not_elem in H.
    mstep.
    rewrite H. reflexivity.
  - reflexivity.
Qed.

Lemma to_sql_rejects_invalid_arguments_witness :
  (exists e,
     to_sql (sample_env 0 "" "") people "t" password_creds "function" "dbo" true
       "append" None false w0 = (Raise e, w0) /\ kind_of e = ValidationKind)
  /\ (exists e,
     to_sql (sample_env 0 "" "") people "t" password_creds "table" "dbo" true
       "merge" None false w0 = (Raise e, w0) /\ kind_of e = ValidationKind).
Proof.
  split; apply to_sql_rejects_invalid_arguments.
  - left. intros H. apply str_in_list_elem in H. discriminate H.
  - right. intros H. apply str_in_list_elem in H. discriminate H.
Defined.

(** C7: a [read_sql] call whose target name contains [;] raises an error of
    the validation kind and leaves the world as it was: no connection is
    opened, no query or bulk copy is run. *)
Theorem read_sql_rejects_statement_separator
    env table_name creds sql_type schema version batch_size w :
  (exists a b, table_name = a ++ ";" ++ b) ->
  exists e,
    read_sql env table_name creds sql_type schema version batch_size w = (Raise e, w)
    /\ kind_of e = ValidationKind.
Proof.
  intros (a & b & ->). unfold read_sql.
  destruct (str_in_list sql_type SQL_TYPES).
  - destruct ((version =? 13) || (version =? 17)).
    + rewrite py_in_app. eexists. split; reflexivity.
    + eexists. split; reflexivity.
  - eexists. split; reflexivity.
Qed.

Lemma read_sql_rejects_statement_separator_witness :
  exists e,
    read_sql (sample_env 0 "" "") "t; DROP TABLE u" password_creds "table" "dbo" 17
      (Some 10000) w0 = (Raise e, w0)
    /\ kind_of e = ValidationKind.
Proof.
  apply read_sql_rejects_statement_separator.
  exists "t", " DROP TABLE u". reflexivity.
Defined.

(** ** The credential object *)

(** What the constructor comes to, case by case. *)
Lemma SqlCreds_init_run server database username password w :
  SqlCreds_init server database username password w =
  if negb (truthy server) || negb (truthy database) then
    (Raise (ValueError ("Server and database can't be None, you passed "
                          ++ py_str (of_arg server) ++ ", " ++ py_str (of_arg database))), w)
  else
    let self :=
      if truthy username && truthy password
      then password_dict server database username password
      else integrated_dict server database in
    (Return self, logged w (Log "INFO" ("Created creds:" ++ tab ++ SqlCreds_str self))).
Proof.
  unfold SqlCreds_init.
  destruct (negb (truthy server) || negb (truthy database)); [reflexivity|].
  destruct (truthy username && truthy password); reflexivity.
Qed.

Lemma truthy_Some s : s <> "" -> truthy (Some s) = true.
Proof.
  intros H. unfold truthy. destruct (String.eqb s "") eqn:E; [|reflexivity].
  apply String.eqb_eq in E. contradiction.
Qed.

Lemma append_assoc (a b c : string) : (a ++ b) ++ c = a ++ (b ++ c).
Proof.
  induction a as [|x a IH]; [reflexivity|].
  change (String x ((a ++ b) ++ c) = String x (a ++ (b ++ c))). now rewrite IH.
Qed.

Lemma SqlCreds_str_password_dict server database username password :
  SqlCreds_str (password_dict server database username password) =
  "SqlCreds(server=" ++ py_repr (of_arg server)
    ++ ", database=" ++ py_repr (of_arg database)
    ++ ", username=" ++ py_repr (of_arg username)
    ++ ", with_krb_auth=False, password=[REDACTED])".
Proof.
  unfold SqlCreds_str, SqlCreds_repr, password_dict.
  cbn [join map List.filter fst snd]. cbn.
  rewrite !append_assoc. reflexivity.
Qed.

Lemma SqlCreds_str_integrated_dict server database :
  SqlCreds_str (integrated_dict server database) =
  "SqlCreds(server=" ++ py_repr (of_arg server)
    ++ ", database=" ++ py_repr (of_arg database) ++ ", with_krb_auth=True)".
Proof.
  unfold SqlCreds_str, SqlCreds_repr, integrated_dict. cbn.
  rewrite !append_assoc. reflexivity.
Qed.

Lemma SqlCreds_init_Return server database username password w creds w' :
  SqlCreds_init server database username password w = (Return creds, w') ->
  creds = (if truthy username && truthy password
           then password_dict server database username password
           else integrated_dict server database)
  /\ w' = logged w (Log "INFO" ("Created creds:" ++ tab ++ SqlCreds_str creds)).
Proof.
  rewrite SqlCreds_init_run.
  destruct (negb (truthy server) || negb (truthy database)); [discriminate|].
  cbv zeta. intros H. injection H as <- <-. split; reflexivity.
Qed.

(** The authentication mode of any constructed credential: password-based
    exactly when the username and the password are both non-empty texts. *)
Lemma with_krb_auth_spec server database username password w creds w' :
  SqlCreds_init server database username password w = (Return creds, w') ->
  lookup_attr "with_krb_auth" creds
    = Some (ABool (negb (truthy username && truthy password))).
Proof.
  intros H. apply SqlCreds_init_Return in H as [-> _].
  destruct (truthy username && truthy password); reflexivity.
Qed.

(** C4, as the code has it: a credential constructed with only server and
    database is in integrated mode ([with_krb_auth] is [True]); a credential
    constructed with a username and a password that are both non-empty is in
    password mode ([with_krb_auth] is [False]); a username or password that
    is absent or the empty string counts as not supplied, and the mode is
    then integrated. *)
Theorem auth_mode_of_credentials server database username password w creds w' :
  SqlCreds_init server database username password w = (Return creds, w') ->
  (username = None -> password = None ->
   lookup_attr "with_krb_auth" creds = Some (ABool true))
  /\ (forall u p, username = Some u -> password = Some p -> u <> "" -> p <> "" ->
      lookup_attr "with_krb_auth" creds = Some (ABool false))
  /\ (username = None \/ username = Some "" \/ password = None \/ password = Some "" ->
      lookup_attr "with_krb_auth" creds = Some (ABool true))
  /\ lookup_attr "with_krb_auth" creds
     = Some (ABool (negb (truthy username && truthy password))).
Proof.
  intros H. apply with_krb_auth_spec in H. rewrite H. repeat split.
  - now intros -> ->.
  - intros u p -> -> Hu Hp. now rewrite (truthy_Some u Hu), (truthy_Some p Hp).
  - intros [-> | [-> | [-> | ->]]]; cbn [truthy String.eqb negb andb];
      try reflexivity; now rewrite andb_false_r.
Qed.

Lemma auth_mode_of_credentials_witness :
  lookup_attr "with_krb_auth" (integrated_dict (Some "srv") (Some "db"))
    = Some (ABool true)
  /\ lookup_attr "with_krb_auth"
       (password_dict (Some "srv") (Some "db") (Some "sa") (Some "pw"))
     = Some (ABool false).
Proof.
  split.
  - destruct (auth_mode_of_credentials (Some "srv") (Some "db") (Some "sa") (Some "") w0
                (integrated_dict (Some "srv") (Some "db"))
                (logged w0 (Log "INFO" ("Created creds:" ++ tab
                   ++ SqlCreds_str (integrated_dict (Some "srv") (Some "db")))))
                eq_refl) as (_ & _ & H & _).
    apply H. right. right. right. reflexivity.
  - destruct (auth_mode_of_credentials (Some "srv") (Some "db") (Some "sa") (Some "pw") w0
                (password_dict (Some "srv") (Some "db") (Some "sa") (Some "pw"))
                (logged w0 (Log "INFO" ("Created creds:" ++ tab
                   ++ SqlCreds_str
                        (password_dict (Some "srv") (Some "db") (Some "sa") (Some "pw")))))
                eq_refl) as (_ & H & _).
    apply (H "sa" "pw"); [reflexivity | reflexivity | discriminate | discriminate].
Defined.

(** C4 as stated fails: with username [sa] and an empty password, both
    supplied, the credential comes out in integrated mode. *)
Lemma supplied_empty_password_is_integrated :
  SqlCreds_init (Some "srv") (Some "db") (Some "sa") (Some "") w0
  = (Return [("server", AStr "srv"); ("database", AStr "db");
             ("with_krb_auth", ABool true)],
     logged w0 (Log "INFO" ("Created creds:" ++ tab
       ++ "SqlCreds(server='srv', database='db', with_krb_auth=True)"))).
Proof. reflexivity. Qed.

(** C5, as the code has it: the string conversion of a constructed
    credential does not depend on the password value.  Two constructions that
    differ only in their non-empty passwords give the same text (and the same
    log line); the text shows [password=[REDACTED]] where the password is
    stored and the [repr] of every other attribute. *)
Theorem SqlCreds_str_independent_of_password
    server database username p1 p2 w c1 w1 c2 w2 :
  p1 <> "" -> p2 <> "" ->
  SqlCreds_init server database username (Some p1) w = (Return c1, w1) ->
  SqlCreds_init server database username (Some p2) w = (Return c2, w2) ->
  SqlCreds_str c1 = SqlCreds_str c2
  /\ w1 = w2
  /\ SqlCreds_str c1 =
       if truthy username then
         "SqlCreds(server=" ++ py_repr (of_arg server)
           ++ ", database=" ++ py_repr (of_arg database)
           ++ ", username=" ++ py_repr (of_arg username)
           ++ ", with_krb_auth=False, password=[REDACTED])"
       else
         "SqlCreds(server=" ++ py_repr (of_arg server)
           ++ ", database=" ++ py_repr (of_arg database) ++ ", with_krb_auth=True)".
Proof.
  intros Hp1 Hp2 H1 H2.
  apply SqlCreds_init_Return in H1 as [E1 ->].
  apply SqlCreds_init_Return in H2 as [E2 ->].
  rewrite (truthy_Some p1 Hp1) in E1. rewrite (truthy_Some p2 Hp2) in E2.
  assert (Hstr : SqlCreds_str c1 = SqlCreds_str c2).
  { subst c1 c2. destruct (truthy username); cbn [andb]; [|reflexivity].
    now rewrite !SqlCreds_str_password_dict. }
  split; [exact Hstr|]. split; [now rewrite Hstr|].
  subst c1. destruct (truthy username); cbn [andb].
  - apply SqlCreds_str_password_dict.
  - apply SqlCreds_str_integrated_dict.
Qed.

Lemma SqlCreds_str_independent_of_password_witness :
  SqlCreds_str (password_dict (Some "srv") (Some "db") (Some "sa") (Some "hunter2"))
  = "SqlCreds(server='srv', database='db', username='sa', with_krb_auth=False, password=[REDACTED])".
Proof.
  pose proof (SqlCreds_str_independent_of_password
                (Some "srv") (Some "db") (Some "sa") "hunter2" "letmein" w0
                _ _ _ _ ltac:(discriminate) ltac:(discriminate)
                eq_refl eq_refl) as (_ & _ & H).
  exact H.
Defined.

(** C5 as stated fails: a password equal to the username shows up in the
    text, through the username. *)
Lemma password_equal_to_username_is_shown :
  SqlCreds_str (password_dict (Some "srv") (Some "db") (Some "admin") (Some "admin"))
  = "SqlCreds(server='srv', database='db', username='admin', with_krb_auth=False, password=[REDACTED])"
  /\ fst (SqlCreds_init (Some "srv") (Some "db") (Some "admin") (Some "admin") w0)
     = Return (password_dict (Some "srv") (Some "db") (Some "admin") (Some "admin"))
  /\ py_in "admin"
       (SqlCreds_str (password_dict (Some "srv") (Some "db") (Some "admin") (Some "admin")))
     = true.
Proof. repeat split; reflexivity. Qed.

(** C10: with server and database given and exactly one of username and
    password non-empty (the other absent or empty), construction succeeds in
    integrated mode, with neither a [username] nor a [password] attribute;
    the call comes to the same credential and the same log line as the call
    with neither of them. *)
Theorem lone_username_or_password_is_discarded server database username password w :
  truthy server = true -> truthy database = true ->
  (truthy username = true /\ truthy password = false)
  \/ (truthy username = false /\ truthy password = true) ->
  exists creds w',
    SqlCreds_init server database username password w = (Return creds, w')
    /\ lookup_attr "with_krb_auth" creds = Some (ABool true)
    /\ hasattr creds "username" = false
    /\ hasattr creds "password" = false
    /\ SqlCreds_init server database None None w = (Return creds, w').
Proof.
  intros Hs Hd Hone.
  exists (integrated_dict server database).
  eexists. rewrite !SqlCreds_init_run, Hs, Hd.
  destruct Hone as [[-> ->] | [-> ->]]; cbn; repeat split; reflexivity.
Qed.

Lemma lone_username_or_password_is_discarded_witness :
  exists creds w',
    SqlCreds_init (Some "srv") (Some "db") (Some "sa") None w0 = (Return creds, w')
    /\ lookup_attr "with_krb_auth" creds = Some (ABool true)
    /\ hasattr creds "username" = false
    /\ hasattr creds "password" = false
    /\ SqlCreds_init (Some "srv") (Some "db") None None w0 = (Return creds, w').
Proof.
  apply lone_username_or_password_is_discarded; [reflexivity | reflexivity |].
  left. split; reflexivity.
Defined.

(** ** The write path *)

Lemma csv_write_chars_flat s : exists r, csv_write_chars flat_file_kwargs s = Return r.
Proof.
  induction s as [|c s [[txt q] IH]]; [eexists; reflexivity|].
  cbn [csv_write_chars]. rewrite IH.
  unfold csv_write_char; cbn [sep quoting quotechar line_terminator doublequote
                               flat_file_kwargs is_escapechar escapechar].
  destruct (Ascii.eqb c DELIMITER || false || Ascii.eqb c QUOTECHAR || char_in c NEWLINE).
  - destruct (Ascii.eqb c QUOTECHAR); eexists; reflexivity.
  - eexists; reflexivity.
Qed.

Lemma csv_write_fields_flat l : exists r, csv_write_fields flat_file_kwargs l = Return r.
Proof.
  induction l as [|f l [ts IH]]; [eexists; reflexivity|].
  cbn [csv_write_fields]. unfold csv_write_field.
  destruct (csv_write_chars_flat f) as [[txt q] ->]. rewrite IH.
  eexists; reflexivity.
Qed.

Lemma csv_writerows_flat rows : exists r, csv_writerows flat_file_kwargs rows = Return r.
Proof.
  induction rows as [|r rows [ts IH]]; [eexists; reflexivity|].
  cbn [csv_writerows]. unfold csv_writerow.
  destruct (csv_write_fields_flat r) as [fs ->]. rewrite IH.
  destruct r as [|? [|? ?]]; try (eexists; reflexivity).
  destruct (join _ fs); eexists; reflexivity.
Qed.

(** With the arguments [to_sql] passes, serialization cannot fail. *)
Lemma to_csv_text_flat df : exists txt, to_csv_text flat_file_kwargs df = Return txt.
Proof. apply csv_writerows_flat. Qed.

Lemma to_sql_staged env df table_name creds sql_type schema index if_exists
    batch_size debug w txt fmt :
  sql_type ∈ SQL_TYPES -> if_exists ∈ IF_EXISTS_OPTIONS ->
  to_csv_text flat_file_kwargs df = Return txt ->
  build_format_file env df = Return fmt ->
  to_sql env df table_name creds sql_type schema index if_exists batch_size debug w
  = try_finally
      (to_sql_try env df table_name creds sql_type schema if_exists batch_size
         (csv_path w) (fmt_path w txt))
      (to_sql_finally debug (csv_path w) (fmt_path w txt))
      (staged w txt fmt).
Proof.
  intros H1 H2 Htxt Hfmt.
  apply str_in_list_elem in H1. apply str_in_list_elem in H2.
  unfold to_sql. rewrite H1, H2.
  unfold py_assert.
  do 3 mstep.
  unfold df_to_csv. fold flat_file_kwargs. rewrite Htxt.
  do 3 mstep.
  rewrite Hfmt.
  do 3 mstep.
  unfold staged. trace_norm. reflexivity.
Qed.

Lemma csv_path_fresh w : files w !! csv_path w = None.
Proof. apply not_elem_of_dom. unfold csv_path. apply is_fresh. Qed.

Lemma fmt_path_ne_csv_path w txt : fmt_path w txt <> csv_path w.
Proof.
  intros E.
  pose proof (is_fresh (dom (<[csv_path w := txt]> (<[csv_path w := ""]> (files w))))) as H.
  fold (fmt_path w txt) in H. rewrite E in H. apply H.
  apply elem_of_dom. rewrite lookup_insert_eq. eauto.
Qed.

Lemma fmt_path_fresh w txt : files w !! fmt_path w txt = None.
Proof.
  pose proof (is_fresh (dom (<[csv_path w := txt]> (<[csv_path w := ""]> (files w))))) as H.
  fold (fmt_path w txt) in H. apply not_elem_of_dom in H.
  pose proof (fmt_path_ne_csv_path w txt) as Hne.
  rewrite !lookup_insert_ne in H by congruence. exact H.
Qed.

Lemma staged_csv w txt fmt : files (staged w txt fmt) !! csv_path w = Some txt.
Proof.
  pose proof (fmt_path_ne_csv_path w txt) as Hne. cbn [staged files].
  rewrite !lookup_insert_ne by exact Hne. apply lookup_insert_eq.
Qed.

Lemma staged_fmt w txt fmt : files (staged w txt fmt) !! fmt_path w txt = Some fmt.
Proof. cbn [staged files]. apply lookup_insert_eq. Qed.

(** Removing the two scratch files gives back the files the call started
    from. *)
Lemma staged_removed w txt fmt :
  delete (fmt_path w txt) (delete (csv_path w) (files (staged w txt fmt))) = files w.
Proof.
  pose proof (fmt_path_ne_csv_path w txt) as Hne.
  cbn [staged files]. rewrite !insert_insert_eq.
  rewrite delete_insert_ne by congruence.
  rewrite delete_insert_eq, delete_insert_eq.
  rewrite (delete_id _ (csv_path w)) by apply csv_path_fresh.
  apply delete_id, fmt_path_fresh.
Qed.

Lemma getattr_run cls o name w :
  getattr cls o name w =
  match lookup_attr name o with
  | Some v => (Return v, w)
  | None =>
      (Raise (AttributeError ("'" ++ cls ++ "' object has no attribute '" ++ name ++ "'")), w)
  end.
Proof. unfold getattr. destruct (lookup_attr name o); reflexivity. Qed.

Lemma bcp_in_run env call w :
  bc_direction call = IN ->
  bcp env call w =
  (let '(status, output, _) := bcp_process env call (files w) in
   if status =? 0 then Return tt else Raise (BulkCopyError output status),
   logged w (RunBcp call)).
Proof.
  intros Hdir. unfold bcp. mstep.
  cbn [files trace]. rewrite Hdir.
  destruct (bcp_process env call (files w)) as [[status output] data].
  change (String.eqb IN OUT) with false. cbv iota.
  destruct (status =? 0); reflexivity.
Qed.

Lemma bcp_out_run env call w :
  bc_direction call = OUT ->
  bcp env call w =
  (let '(status, output, data) := bcp_process env call (files w) in
   (if status =? 0 then Return tt else Raise (BulkCopyError output status),
    {| files := <[bc_flat_file call := data]> (files w);
       trace := trace w ++ [RunBcp call] |})).
Proof.
  intros Hdir. unfold bcp. mstep.
  cbn [files trace]. rewrite Hdir.
  destruct (bcp_process env call (files w)) as [[status output] data].
  change (String.eqb OUT OUT) with true. cbv iota.
  destruct (status =? 0); reflexivity.
Qed.

(** The [try] block never touches the scratch files. *)
Lemma to_sql_try_files env df table_name creds sql_type schema if_exists batch_size
    csvp fmtp w :
  files (snd (to_sql_try env df table_name creds sql_type schema if_exists batch_size
                csvp fmtp w)) = files w.
Proof.
  unfold to_sql_try.
  assert (Hbcp : forall c w1, bc_direction c = IN -> files (snd (bcp env c w1)) = files w1).
  { intros c w1 Hc. rewrite bcp_in_run by exact Hc.
    destruct (bcp_process env c (files w1)) as [[? ?] ?]. reflexivity. }
  destruct (String.eqb if_exists "fail"); [reflexivity|].
  destruct (String.eqb if_exists "replace").
  - unfold bind at 1. unfold bind at 1. unfold lift_outcome, _get_sql_create_statement.
    destruct (sql_create_statement env df table_name schema) as [cmd|e]; [|reflexivity].
    unfold bind at 1. rewrite getattr_run.
    destruct (lookup_attr "server" creds); [|reflexivity].
    unfold bind at 1. rewrite getattr_run.
    destruct (lookup_attr "database" creds); [|reflexivity].
    unfold bind at 1. rewrite getattr_run.
    destruct (lookup_attr "username" creds); [|reflexivity].
    unfold bind at 1. rewrite getattr_run.
    destruct (lookup_attr "password" creds); [|reflexivity].
    unfold sqlcmd. unfold bind at 1. unfold emit, lift_outcome.
    match goal with |- context [sqlcmd_result env ?c] => destruct (sqlcmd_result env c) end;
      [|reflexivity].
    rewrite Hbcp by reflexivity. reflexivity.
  - assert (E : forall c : M unit,
               ((if String.eqb if_exists "append" then ret tt else ret tt);; c)
               = (ret tt;; c)) by (intros; destruct (String.eqb _ _); reflexivity).
    rewrite E. mstep. now apply Hbcp.
Qed.

Lemma to_sql_finally_delete w2 w txt fmt :
  files w2 = files (staged w txt fmt) ->
  to_sql_finally false (csv_path w) (fmt_path w txt) w2
  = (Return tt,
     {| files := files w;
        trace := trace w2
                   ++ [Log "DEBUG" "Deleting temp CSV and format files";
                       RemoveFile (csv_path w);
                       RemoveFile (fmt_path w txt)] |}).
Proof.
  intros Hfiles. unfold to_sql_finally. cbn [negb].
  mstep.
  unfold bind, os_remove. cbn [files trace].
  rewrite Hfiles, staged_csv. cbn [files trace].
  rewrite lookup_delete_ne by (apply not_eq_sym, fmt_path_ne_csv_path).
  rewrite staged_fmt, staged_removed. trace_norm. reflexivity.
Qed.

Lemma to_sql_finally_debug w2 csvp fmtp :
  to_sql_finally true csvp fmtp w2
  = (Return tt,
     logged w2 (Log "DEBUG"
       ("`to_sql` DEBUG mode, not deleting the files. CSV file is at "
          ++ csvp ++ ", format file is at " ++ fmtp))).
Proof. reflexivity. Qed.

(** Once both scratch files are written, whatever the existence policy and
    the bulk copy come to, [debug=False] removes both files before the call
    ends, and [debug=True] keeps them; the outcome is that of the [try]
    block. *)
Lemma to_sql_cleanup_after_staging env df table_name creds sql_type schema index
    if_exists batch_size debug w txt fmt :
  sql_type ∈ SQL_TYPES -> if_exists ∈ IF_EXISTS_OPTIONS ->
  to_csv_text flat_file_kwargs df = Return txt ->
  build_format_file env df = Return fmt ->
  exists w',
    to_sql env df table_name creds sql_type schema index if_exists batch_size debug w
    = (fst (to_sql_try env df table_name creds sql_type schema if_exists batch_size
              (csv_path w) (fmt_path w txt) (staged w txt fmt)), w')
    /\ files w' = (if debug then files (staged w txt fmt) else files w)
    /\ io_events w'
       = io_events (snd (to_sql_try env df table_name creds sql_type schema if_exists
                           batch_size (csv_path w) (fmt_path w txt) (staged w txt fmt))).
Proof.
  intros H1 H2 Htxt Hfmt.
  rewrite (to_sql_staged _ _ _ _ _ _ _ _ _ _ _ txt fmt) by assumption.
  unfold try_finally.
  pose proof (to_sql_try_files env df table_name creds sql_type schema if_exists
                batch_size (csv_path w) (fmt_path w txt) (staged w txt fmt)) as Hf.
  destruct (to_sql_try _ _ _ _ _ _ _ _ _ _ _) as [r w2]. cbn [fst snd] in *.
  destruct debug.
  - rewrite to_sql_finally_debug. eexists. split; [reflexivity|]. split; [exact Hf|].
    unfold io_events, logged. cbn [trace]. rewrite List.filter_app.
    cbn [List.filter is_io]. apply app_nil_r.
  - rewrite (to_sql_finally_delete w2 w txt fmt) by exact Hf.
    eexists. split; [reflexivity|]. split; [reflexivity|].
    unfold io_events. cbn [trace]. rewrite List.filter_app.
    cbn [List.filter is_io]. apply app_nil_r.
Qed.

Lemma io_events_staged w txt fmt : io_events (staged w txt fmt) = io_events w.
Proof.
  unfold io_events, staged. cbn [trace]. rewrite !List.filter_app.
  cbn [List.filter is_io]. now rewrite !app_nil_r.
Qed.

Lemma build_format_file_columns env df :
  df_columns df <> [] -> build_format_file env df = Return (format_file_text env df).
Proof. unfold build_format_file. destruct (df_columns df); [contradiction|reflexivity]. Qed.

Lemma fail_in_options : "fail" ∈ IF_EXISTS_OPTIONS.
Proof. apply str_in_list_elem. reflexivity. Qed.

Lemma replace_in_options : "replace" ∈ IF_EXISTS_OPTIONS.
Proof. apply str_in_list_elem. reflexivity. Qed.

Lemma table_in_types : "table" ∈ SQL_TYPES.
Proof. apply str_in_list_elem. reflexivity. Qed.

Lemma to_sql_fail_run env df table_name creds sql_type schema index batch_size debug w :
  sql_type ∈ SQL_TYPES -> df_columns df <> [] ->
  exists w',
    to_sql env df table_name creds sql_type schema index "fail" batch_size debug w
      = (Raise NotImplementedError, w')
    /\ io_events w' = io_events w
    /\ (debug = false -> files w' = files w).
Proof.
  intros Htype Hcols.
  destruct (to_csv_text_flat df) as [txt Htxt].
  destruct (to_sql_cleanup_after_staging env df table_name creds sql_type schema index
              "fail" batch_size debug w txt (format_file_text env df) Htype
              fail_in_options Htxt (build_format_file_columns env df Hcols))
    as (w' & Hrun & Hfiles & Hio).
  exists w'. split; [exact Hrun|]. split.
  - rewrite Hio. apply io_events_staged.
  - intros ->. exact Hfiles.
Qed.

(** C6: a [to_sql] call with [if_exists="fail"] that gets past validation,
    serialization and the format file raises [NotImplementedError], the
    distinct "not implemented" signal: it neither returns nor runs the query
    tool or the bulk copy, and with [debug=False] it leaves no scratch file. *)
Theorem to_sql_fail_policy_not_implemented
    env df table_name creds sql_type schema index batch_size debug w :
  sql_type ∈ SQL_TYPES -> df_columns df <> [] ->
  exists w',
    to_sql env df table_name creds sql_type schema index "fail" batch_size debug w
      = (Raise NotImplementedError, w')
    /\ kind_of NotImplementedError = NotImplementedKind
    /\ io_events w' = io_events w
    /\ (debug = false -> files w' = files w).
Proof.
  intros Htype Hcols.
  destruct (to_sql_fail_run env df table_name creds sql_type schema index batch_size
              debug w Htype Hcols) as (w' & Hrun & Hio & Hfiles).
  exists w'. repeat split; assumption.
Qed.

Lemma to_sql_fail_policy_not_implemented_witness :
  exists w',
    to_sql (sample_env 0 "" "") people "t" password_creds "table" "dbo" true "fail"
      None false w0 = (Raise NotImplementedError, w')
    /\ kind_of NotImplementedError = NotImplementedKind
    /\ io_events w' = io_events w0
    /\ (false = false -> files w' = files w0).
Proof.
  apply to_sql_fail_policy_not_implemented; [exact table_in_types | discriminate].
Defined.

(** With [if_exists="fail"] no call returns normally, whatever the other
    arguments. *)
Lemma to_sql_fail_policy_never_returns
    env df table_name creds sql_type schema index batch_size debug w :
  exists e w',
    to_sql env df table_name creds sql_type schema index "fail" batch_size debug w
    = (Raise e, w').
Proof.
  destruct (str_in_list sql_type SQL_TYPES) eqn:Htype.
  - apply str_in_list_elem in Htype.
    destruct (df_columns df) as [|c cs] eqn:Hcols.
    + destruct (to_csv_text_flat df) as [txt Htxt].
      unfold to_sql. apply str_in_list_elem in Htype. rewrite Htype.
      unfold py_assert. do 3 mstep.
      unfold df_to_csv. fold flat_file_kwargs. rewrite Htxt.
      do 3 mstep.
      unfold build_format_file. rewrite Hcols.
      erewrite bind_Raise by reflexivity. eauto.
    + destruct (to_sql_fail_run env df table_name creds sql_type
                  schema index batch_size debug w Htype) as (w' & H & _).
      { rewrite Hcols. discriminate. }
      eauto.
  - unfold to_sql. rewrite Htype. eexists _, _. reflexivity.
Qed.

(** ** Integrated credentials on the paths that read the password *)

Lemma prefix_split n h : String.prefix n h = true -> exists b, h = n ++ b.
Proof.
  revert h. induction n as [|c n IH]; intros h H.
  - exists h. reflexivity.
  - destruct h as [|c' h]; [discriminate|].
    cbn [String.prefix] in H. destruct (ascii_dec c c') as [->|]; [|discriminate].
    destruct (IH h H) as [b ->]. exists b. reflexivity.
Qed.

Lemma py_in_split n h : py_in n h = true -> exists a b, h = a ++ n ++ b.
Proof.
  induction h as [|c h IH]; cbn [py_in]; intros H.
  - rewrite orb_false_r in H. apply prefix_split in H as [b ->]. now exists "", b.
  - apply orb_true_iff in H as [H|H].
    + apply prefix_split in H as [b ->]. now exists "", b.
    + destruct (IH H) as (a & b & ->). now exists (String c a), b.
Qed.

Lemma py_in_false n h : (forall a b, h <> a ++ n ++ b) -> py_in n h = false.
Proof.
  intros H. destruct (py_in n h) eqn:E; [|reflexivity].
  apply py_in_split in E as (a & b & ->). now destruct (H a b).
Qed.

Lemma integrated_creds_dict server database username password w creds w' :
  SqlCreds_init server database username password w = (Return creds, w') ->
  lookup_attr "with_krb_auth" creds = Some (ABool true) ->
  creds = integrated_dict server database.
Proof.
  intros H Hkrb. apply SqlCreds_init_Return in H as [-> _].
  destruct (truthy username && truthy password); [discriminate|reflexivity].
Qed.

Lemma read_sql_integrated_run env server database table_name sql_type schema version
    batch_size w :
  sql_type ∈ SQL_TYPES -> version = 13 \/ version = 17 ->
  py_in ";" table_name = false ->
  read_sql env table_name (integrated_dict server database) sql_type schema version
    batch_size w = (Raise no_username, w).
Proof.
  intros Htype Hver Hsep. apply str_in_list_elem in Htype.
  unfold read_sql. rewrite Htype, Hsep.
  destruct Hver as [-> | ->]; reflexivity.
Qed.

Lemma to_sql_replace_integrated_run env server database df table_name sql_type schema
    index batch_size debug w cmd :
  sql_type ∈ SQL_TYPES -> df_columns df <> [] ->
  _get_sql_create_statement env df table_name schema = Return cmd ->
  exists w',
    to_sql env df table_name (integrated_dict server database) sql_type schema index
      "replace" batch_size debug w = (Raise no_username, w')
    /\ io_events w' = io_events w
    /\ (debug = false -> files w' = files w).
Proof.
  intros Htype Hcols Hcmd.
  destruct (to_csv_text_flat df) as [txt Htxt].
  destruct (to_sql_cleanup_after_staging env df table_name
              (integrated_dict server database) sql_type schema index
              "replace" batch_size debug w txt (format_file_text env df) Htype
              replace_in_options Htxt (build_format_file_columns env df Hcols))
    as (w' & Hrun & Hfiles & Hio).
  assert (Htry : to_sql_try env df table_name (integrated_dict server database) sql_type
                   schema "replace" batch_size (csv_path w) (fmt_path w txt)
                   (staged w txt (format_file_text env df))
                 = (Raise no_username, staged w txt (format_file_text env df))).
  { unfold to_sql_try. cbn [String.eqb Ascii.eqb Bool.eqb].
    unfold bind at 1. unfold bind at 1. unfold lift_outcome. rewrite Hcmd. reflexivity. }
  rewrite Htry in Hrun, Hio. cbn [fst snd] in *.
  exists w'. split; [exact Hrun|]. split.
  - rewrite Hio. apply io_events_staged.
  - intros ->. exact Hfiles.
Qed.

(** C9: with a credential constructed in integrated mode, which has neither
    a [username] nor a [password] attribute, a [read_sql] call that passes
    its checks and a [to_sql] call with [if_exists="replace"] that reaches its
    [try] block both end in an AttributeError on [username]: no connection is
    opened, neither the query tool nor the bulk copy is run. *)
Theorem integrated_credential_breaks_read_and_replace
    env server database username password wc creds wc'
    df table_name sql_type schema index version batch_size debug w cmd :
  SqlCreds_init server database username password wc = (Return creds, wc') ->
  lookup_attr "with_krb_auth" creds = Some (ABool true) ->
  sql_type ∈ SQL_TYPES ->
  version = 13 \/ version = 17 ->
  (forall a b, table_name <> a ++ ";" ++ b) ->
  df_columns df <> [] ->
  _get_sql_create_statement env df table_name schema = Return cmd ->
  hasattr creds "username" = false
  /\ hasattr creds "password" = false
  /\ read_sql env table_name creds sql_type schema version batch_size w
     = (Raise (AttributeError "'SqlCreds' object has no attribute 'username'"), w)
  /\ exists w',
       to_sql env df table_name creds sql_type schema index "replace" batch_size debug w
       = (Raise (AttributeError "'SqlCreds' object has no attribute 'username'"), w')
       /\ io_events w' = io_events w
       /\ (debug = false -> files w' = files w).
Proof.
  intros Hinit Hkrb Htype Hver Hsep Hcols Hcmd.
  rewrite (integrated_creds_dict _ _ _ _ _ _ _ Hinit Hkrb).
  split; [reflexivity|]. split; [reflexivity|]. split.
  - apply read_sql_integrated_run; [assumption..|]. now apply py_in_false.
  - now apply (to_sql_replace_integrated_run env server database df table_name sql_type
                 schema index batch_size debug w cmd).
Qed.

Lemma integrated_credential_breaks_read_and_replace_witness :
  hasattr (integrated_dict (Some "srv") (Some "db")) "username" = false
  /\ hasattr (integrated_dict (Some "srv") (Some "db")) "password" = false
  /\ read_sql (sample_env 0 "" "") "t" (integrated_dict (Some "srv") (Some "db"))
       "table" "dbo" 17 (Some 10000) w0
     = (Raise (AttributeError "'SqlCreds' object has no attribute 'username'"), w0)
  /\ exists w',
       to_sql (sample_env 0 "" "") people "t" (integrated_dict (Some "srv") (Some "db"))
         "table" "dbo" true "replace" None false w0
       = (Raise (AttributeError "'SqlCreds' object has no attribute 'username'"), w')
       /\ io_events w' = io_events w0
       /\ (false = false -> files w' = files w0).
Proof.
  apply (integrated_credential_breaks_read_and_replace
           (sample_env 0 "" "") (Some "srv") (Some "db") None None w0
           (integrated_dict (Some "srv") (Some "db"))
           (logged w0 (Log "INFO" ("Created creds:" ++ tab
              ++ SqlCreds_str (integrated_dict (Some "srv") (Some "db")))))
           people "t" "table" "dbo" true 17 (Some 10000) false w0 "CREATE TABLE dbo.t").
  - reflexivity.
  - reflexivity.
  - exact table_in_types.
  - right. reflexivity.
  - intros a b E. pose proof (py_in_app a ";" b) as H. rewrite <- E in H. discriminate H.
  - discriminate.
  - reflexivity.
Defined.

(** ** Scratch files when the format file cannot be built *)

(** A failure of the format-file builder reaches the caller with the flat
    file still in place, whatever [debug] says: the [try] block has not been
    entered yet. *)
Lemma to_sql_format_failure_leaks env df table_name creds sql_type schema index
    if_exists batch_size debug w txt e :
  sql_type ∈ SQL_TYPES -> if_exists ∈ IF_EXISTS_OPTIONS ->
  to_csv_text flat_file_kwargs df = Return txt ->
  build_format_file env df = Raise e ->
  exists w',
    to_sql env df table_name creds sql_type schema index if_exists batch_size debug w
    = (Raise e, w')
    /\ files w !! csv_path w = None
    /\ files w' !! csv_path w = Some txt.
Proof.
  intros H1 H2 Htxt Hfmt.
  apply str_in_list_elem in H1. apply str_in_list_elem in H2.
  unfold to_sql. rewrite H1, H2. unfold py_assert.
  do 3 mstep.
  unfold df_to_csv. fold flat_file_kwargs. rewrite Htxt.
  do 3 mstep.
  rewrite Hfmt. erewrite bind_Raise by reflexivity.
  eexists. split; [reflexivity|]. split; [apply csv_path_fresh|].
  cbn [files]. fold (csv_path w). fold (fmt_path w txt).
  rewrite lookup_insert_ne by apply fmt_path_ne_csv_path.
  apply lookup_insert_eq.
Qed.

(** C1 fails on the code: for a dataset with no columns the format-file
    builder raises, and [to_sql] with [debug=False] lets the error through
    with both scratch files left behind. *)
Theorem to_sql_leaves_scratch_files_on_format_failure :
  let r := to_sql (sample_env 0 "" "") no_columns "t" password_creds "table" "dbo"
             true "append" None false w0 in
  fst r = Raise SchemaError
  /\ files w0 !! "0" = None /\ files w0 !! "1" = None
  /\ files (snd r) !! "0" = Some ""
  /\ files (snd r) !! "1" = Some "".
Proof. vm_compute. repeat split; reflexivity. Qed.

(** ** The index column of the flat file *)

(** The [index] argument has no effect on what [to_sql] does; the flat file
    the [try] block starts with is the dataset written with [index=False]. *)
Lemma to_sql_ignores_index env df table_name creds sql_type schema i1 i2
    if_exists batch_size debug w :
  to_sql env df table_name creds sql_type schema i1 if_exists batch_size debug w
  = to_sql env df table_name creds sql_type schema i2 if_exists batch_size debug w.
Proof. reflexivity. Qed.

(** C2 fails on the code: with [index=True] the flat file still has no
    index column.  The dataset [people] with row labels 0 and 1 is written as
    the two records [1|a] and [2|b]; written with its index it would be
    [0|1|a] and [1|2|b]. *)
Theorem to_sql_flat_file_lacks_requested_index :
  let r := to_sql (sample_env 0 "" "") people "t" password_creds "table" "dbo"
             true "append" None true w0 in
  fst r = Return tt
  /\ files (snd r) !! "0" = Some ("1|a" ++ NEWLINE ++ "2|b" ++ NEWLINE)
  /\ to_csv_text
       {| sep := DELIMITER; header := false; index := true; quoting := QUOTE_MINIMAL;
          quotechar := QUOTECHAR; line_terminator := NEWLINE; doublequote := true;
          escapechar := None |} people
     = Return ("0|1|a" ++ NEWLINE ++ "1|2|b" ++ NEWLINE).
Proof. vm_compute. repeat split; reflexivity. Qed.

(** ** The read path *)

Lemma map_fst_imap {A B} (f : nat -> A -> B) (l : list A) :
  map fst (imap (fun i x => (x, f i x)) l) = l.
Proof.
  revert f. induction l as [|x l IH]; intros f; [reflexivity|].
  cbn [imap map fst]. f_equal. apply (IH (fun i => f (S i))).
Qed.

(** The columns of a parsed dataset carry the given names, in order. *)
Lemma read_csv_text_names k txt df :
  rc_index_col k = None ->
  read_csv_text k txt = Return df ->
  map fst (df_columns df) = rc_names k.
Proof.
  unfold read_csv_text. intros ->.
  destruct (validate_names _); [|discriminate].
  destruct (tokenize_all _ _ txt) as [rows|e]; [|discriminate].
  destruct (check_field_counts _ _); [|discriminate].
  intros [= <-]. cbn [df_columns].
  apply (map_fst_imap (fun i _ => infer_column (column_fields _ i))).
Qed.

(** What [read_sql] comes to once its checks pass and the credential has its
    four attributes: the connection, the preview query, the scratch file, the
    bulk copy, the parse, the removal. *)
Lemma read_sql_checked env table_name creds sql_type schema version batch_size w
    server database username password :
  sql_type ∈ SQL_TYPES -> version = 13 \/ version = 17 ->
  py_in ";" table_name = false ->
  lookup_attr "server" creds = Some server ->
  lookup_attr "database" creds = Some database ->
  lookup_attr "username" creds = Some username ->
  lookup_attr "password" creds = Some password ->
  let cs := connection_string version server database username password in
  let call := read_sql_call table_name creds sql_type schema batch_size w in
  read_sql env table_name creds sql_type schema version batch_size w
  = match odbc_connect env cs with
    | Raise e => (Raise e, logged w (Connect cs))
    | Return _ =>
        match query_columns env cs (preview_query table_name) with
        | Raise e =>
            (Raise e, logged (logged w (Connect cs)) (Query (preview_query table_name)))
        | Return cols =>
            let '(status, output, data) :=
              bcp_process env call (<[csv_path w := ""]> (files w)) in
            (if status =? 0 then
               read_csv_text {| rc_sep := None; rc_header := None; rc_names := cols;
                                rc_index_col := None |} data
             else Raise (BulkCopyError output status),
             {| files := files w;
                trace :=
                  trace w
                    ++ [Connect cs; Query (preview_query table_name);
                        CreateFile (csv_path w); RunBcp call]
                    ++ (if (status =? 0) && negb (has_duplicates cols)
                        then [ReadFile (csv_path w)] else [])
                    ++ [RemoveFile (csv_path w)] |})
        end
    end.
Proof.
  intros Htype Hver Hsep Hs Hd Hu Hp cs call.
  apply str_in_list_elem in Htype.
  unfold read_sql. rewrite Htype, Hsep.
  assert (Hv : (version =? 13) || (version =? 17) = true)
    by (destruct Hver as [-> | ->]; reflexivity).
  rewrite Hv. unfold py_assert.
  do 2 mstep.
  do 4 (erewrite bind_Return by (rewrite getattr_run; first
          [rewrite Hs | rewrite Hd | rewrite Hu | rewrite Hp]; reflexivity)).
  fold (connection_string version server database username password). fold cs.
  unfold pyodbc_connect, pd_read_sql_query_columns.
  change (str_in_list sql_type [TABLE; VIEW]) with (str_in_list sql_type SQL_TYPES).
  rewrite Htype. fold (preview_query table_name).
  unfold pd_read_csv, read_file, os_remove.
  unfold bind, emit, lift_outcome, ret, get_temp_file, try_finally. cbn [files trace].
  destruct (odbc_connect env cs) as [[]|e]; [|reflexivity].
  destruct (query_columns env cs (preview_query table_name)) as [cols|e]; [|reflexivity].
  cbn [files trace]. fold (csv_path w).
  fold (read_sql_call table_name creds sql_type schema batch_size w). fold call.
  rewrite bcp_out_run by reflexivity. cbn [files trace].
  destruct (bcp_process env _ _) as [[status output] data].
  cbn [bc_flat_file read_sql_call call rc_names].
  assert (Hdel : forall x : string,
             delete (csv_path w) (<[csv_path w := x]> (<[csv_path w := ""]> (files w)))
             = files w).
  { intros x. rewrite insert_insert_eq, delete_insert_eq.
    apply delete_id, csv_path_fresh. }
  destruct (status =? 0); cbn [andb].
  - unfold read_csv_text, validate_names. cbn [rc_names].
    destruct (has_duplicates cols); cbn [negb files trace];
      repeat (rewrite lookup_insert_eq; cbn [files trace]);
      rewrite Hdel; trace_norm; reflexivity.
  - cbn [files trace]. repeat (rewrite lookup_insert_eq; cbn [files trace]).
    rewrite Hdel. trace_norm. reflexivity.
Qed.

(** A [read_sql] call that passes its checks and gets a connection and the
    column names runs one outbound bulk copy into a fresh scratch file,
    parses that file with the discovered names and comma as the separator,
    and removes the file on the way out. *)
Lemma read_sql_run env table_name creds sql_type schema version batch_size w
    server database username password cols :
  sql_type ∈ SQL_TYPES -> version = 13 \/ version = 17 ->
  py_in ";" table_name = false ->
  lookup_attr "server" creds = Some server ->
  lookup_attr "database" creds = Some database ->
  lookup_attr "username" creds = Some username ->
  lookup_attr "password" creds = Some password ->
  odbc_connect env (connection_string version server database username password)
    = Return tt ->
  query_columns env (connection_string version server database username password)
    ("SELECT TOP 2 * FROM " ++ table_name ++ " as qry") = Return cols ->
  exists w',
    read_sql env table_name creds sql_type schema version batch_size w
    = (let '(status, output, data) :=
         bcp_process env (read_sql_call table_name creds sql_type schema batch_size w)
           (<[csv_path w := ""]> (files w)) in
       if status =? 0 then
         read_csv_text {| rc_sep := None; rc_header := None; rc_names := cols;
                          rc_index_col := None |} data
       else Raise (BulkCopyError output status), w')
    /\ files w' = files w.
Proof.
  intros Htype Hver Hsep Hs Hd Hu Hp Hconn Hcols.
  rewrite (read_sql_checked _ _ _ _ _ _ _ _ server database username password)
    by assumption.
  cbv zeta. rewrite Hconn. fold (preview_query table_name) in Hcols. rewrite Hcols.
  destruct (bcp_process env _ _) as [[status output] data].
  eexists. split; reflexivity.
Qed.

(** C8 fails on the code: with the discovered columns [x], [y] and the
    bulk copy writing the records [1|2] and [3|4], [read_sql] does not return
    {x:[1,3], y:[2,4]}.  The file is parsed at commas, so each record is one
    field: column [x] holds the texts [1|2] and [3|4], column [y] is missing
    in both rows.  Parsed at the shared delimiter the same file gives the
    dataset the scenario expects. *)
Theorem read_sql_does_not_split_at_delimiter :
  let data := "1|2" ++ NEWLINE ++ "3|4" ++ NEWLINE in
  fst (read_sql (sample_env 0 "" data) "t" password_creds "table" "dbo" 17
         (Some 10000) w0)
  = Return {| df_index := [CInt 0; CInt 1];
              df_columns := [("x", [CStr "1|2"; CStr "3|4"]); ("y", [CNaN; CNaN])] |}
  /\ read_csv_text {| rc_sep := Some DELIMITER; rc_header := None;
                      rc_names := ["x"; "y"]; rc_index_col := None |} data
     = Return {| df_index := [CInt 0; CInt 1];
                 df_columns := [("x", [CInt 1; CInt 3]); ("y", [CInt 2; CInt 4])] |}.
Proof. vm_compute. split; reflexivity. Qed.

(** ** The bulk copy of the write path *)

Lemma append_in_options : "append" ∈ IF_EXISTS_OPTIONS.
Proof. apply str_in_list_elem. reflexivity. Qed.

(** With [if_exists="append"] and [debug=False]: one inbound bulk copy over
    the two scratch files, which are gone when the call ends; a non-zero exit
    status reaches the caller as a BulkCopyError with the captured output. *)
Lemma to_sql_append_run env df table_name creds sql_type schema index batch_size w txt :
  sql_type ∈ SQL_TYPES -> df_columns df <> [] ->
  to_csv_text flat_file_kwargs df = Return txt ->
  let call :=
    {| bc_sql_item := table_name; bc_direction := IN; bc_flat_file := csv_path w;
       bc_format_file_path := Some (fmt_path w txt); bc_creds := creds;
       bc_sql_type := sql_type; bc_schema := schema; bc_batch_size := batch_size |} in
  exists w',
    to_sql env df table_name creds sql_type schema index "append" batch_size false w
    = (let '(status, output, _) :=
         bcp_process env call (files (staged w txt (format_file_text env df))) in
       if status =? 0 then Return tt else Raise (BulkCopyError output status), w')
    /\ files w' = files w
    /\ io_events w' = (io_events w ++ [RunBcp call])%list.
Proof.
  intros Htype Hcols Htxt call.
  destruct (to_sql_cleanup_after_staging env df table_name creds sql_type schema index
              "append" batch_size false w txt (format_file_text env df) Htype
              append_in_options Htxt (build_format_file_columns env df Hcols))
    as (w' & Hrun & Hfiles & Hio).
  assert (Htry : to_sql_try env df table_name creds sql_type schema "append" batch_size
                   (csv_path w) (fmt_path w txt) (staged w txt (format_file_text env df))
                 = bcp env call (staged w txt (format_file_text env df))) by reflexivity.
  rewrite Htry, bcp_in_run in Hrun, Hio by reflexivity.
  exists w'. split; [|split].
  - rewrite Hrun. cbn [fst].
    destruct (bcp_process env call _) as [[status output] data]. reflexivity.
  - exact Hfiles.
  - rewrite Hio. cbn [snd]. unfold io_events, logged. cbn [trace].
    rewrite List.filter_app. fold (io_events (staged w txt (format_file_text env df))).
    now rewrite io_events_staged.
Qed.

(** The scenario of §8: the bulk copy exits with status 1 and the output
    [Login failed]. *)
Example to_sql_login_failed :
  let r := to_sql (sample_env 1 "Login failed" "") people "t" password_creds "table"
             "dbo" true "append" None false w0 in
  fst r = Raise (BulkCopyError "Login failed" 1) /\ files (snd r) = files w0.
Proof. vm_compute. split; reflexivity. Qed.

(** The scenario of §8: two rows appended, the flat file as the bulk copy
    finds it. *)
Example to_sql_append_people :
  to_csv_text flat_file_kwargs people = Return ("1|a" ++ NEWLINE ++ "2|b" ++ NEWLINE)
  /\ fst (to_sql (sample_env 0 "" "") people "t" password_creds "table" "dbo" true
            "append" None false w0) = Return tt.
Proof. vm_compute. split; reflexivity. Qed.

(** * Further properties of the credential object *)

(** X1: construction succeeds exactly when server and database are both
    non-empty texts; otherwise it raises a ValueError naming the two values,
    and nothing is logged. *)
Theorem SqlCreds_init_succeeds_iff server database username password w :
  ((exists creds w', SqlCreds_init server database username password w = (Return creds, w'))
   <-> truthy server = true /\ truthy database = true)
  /\ ((exists e w', SqlCreds_init server database username password w = (Raise e, w'))
      -> SqlCreds_init server database username password w
         = (Raise (ValueError ("Server and database can't be None, you passed "
                                 ++ py_str (of_arg server) ++ ", "
                                 ++ py_str (of_arg database))), w)).
Proof.
  rewrite SqlCreds_init_run.
  destruct (truthy server), (truthy database); cbn [negb orb]; cbv zeta;
    (split; [split|]);
    try (intros (? & ? & ?); discriminate);
    try (intros [? ?]; discriminate);
    try (intros _; eauto); try reflexivity.
Qed.

(** X2: in every constructed credential the server and the database are
    stored as passed, the username and password attributes are present
    together or not at all, they are present exactly when [with_krb_auth] is
    [False], and they then hold the values passed. *)
Theorem SqlCreds_attributes_invariant server database username password w creds w' :
  SqlCreds_init server database username password w = (Return creds, w') ->
  lookup_attr "server" creds = Some (of_arg server)
  /\ lookup_attr "database" creds = Some (of_arg database)
  /\ hasattr creds "username" = hasattr creds "password"
  /\ lookup_attr "with_krb_auth" creds = Some (ABool (negb (hasattr creds "password")))
  /\ (hasattr creds "password" = true ->
      lookup_attr "username" creds = Some (of_arg username)
      /\ lookup_attr "password" creds = Some (of_arg password)).
Proof.
  intros H. apply SqlCreds_init_Return in H as [-> _].
  destruct (truthy username && truthy password);
    repeat split; try reflexivity; discriminate.
Qed.

Lemma SqlCreds_attributes_invariant_witness :
  let creds := password_dict (Some "srv") (Some "db") (Some "sa") (Some "pw") in
  lookup_attr "server" creds = Some (AStr "srv")
  /\ lookup_attr "database" creds = Some (AStr "db")
  /\ hasattr creds "username" = hasattr creds "password"
  /\ lookup_attr "with_krb_auth" creds = Some (ABool (negb (hasattr creds "password")))
  /\ (hasattr creds "password" = true ->
      lookup_attr "username" creds = Some (AStr "sa")
      /\ lookup_attr "password" creds = Some (AStr "pw")).
Proof.
  exact (SqlCreds_attributes_invariant (Some "srv") (Some "db") (Some "sa") (Some "pw")
           w0 _ _ eq_refl).
Defined.

Lemma filter_setattr_password self v :
  List.filter (fun kv => negb (String.eqb (fst kv) "password")) (setattr self "password" v)
  = List.filter (fun kv => negb (String.eqb (fst kv) "password")) self.
Proof.
  induction self as [|[k v0] rest IH]; [reflexivity|].
  cbn [setattr]. destruct (String.eqb k "password") eqn:E.
  - cbn [List.filter fst]. now rewrite E.
  - cbn [List.filter fst]. rewrite E. cbn [negb]. now rewrite IH.
Qed.

Lemma hasattr_setattr self name v : hasattr (setattr self name v) name = true.
Proof.
  unfold hasattr. induction self as [|[k v0] rest IH]; cbn [setattr lookup_attr].
  - now rewrite String.eqb_refl.
  - destruct (String.eqb k name) eqn:E; cbn [lookup_attr]; rewrite E; [reflexivity|exact IH].
Qed.

(** X3: on any instance, whatever its attributes, the text [__repr__] gives
    does not change with the value the password attribute is set to. *)
Theorem SqlCreds_repr_ignores_password_value (self : pyobject) (v1 v2 : attr) :
  SqlCreds_repr (setattr self "password" v1) = SqlCreds_repr (setattr self "password" v2).
Proof.
  unfold SqlCreds_repr. now rewrite !filter_setattr_password, !hasattr_setattr.
Qed.

(** X4: the string conversion of a credential constructed in integrated mode
    shows the server, the database and [with_krb_auth=True], in this order,
    and no password marker. *)
Theorem SqlCreds_str_integrated server database username password w creds w' :
  SqlCreds_init server database username password w = (Return creds, w') ->
  lookup_attr "with_krb_auth" creds = Some (ABool true) ->
  SqlCreds_str creds
  = "SqlCreds(server=" ++ py_repr (of_arg server)
      ++ ", database=" ++ py_repr (of_arg database) ++ ", with_krb_auth=True)".
Proof.
  intros H Hkrb. rewrite (integrated_creds_dict _ _ _ _ _ _ _ H Hkrb).
  apply SqlCreds_str_integrated_dict.
Qed.

Lemma SqlCreds_str_integrated_witness :
  SqlCreds_str (integrated_dict (Some "srv") (Some "db"))
  = "SqlCreds(server='srv', database='db', with_krb_auth=True)".
Proof.
  exact (SqlCreds_str_integrated (Some "srv") (Some "db") (Some "sa") None w0 _ _
           eq_refl eq_refl).
Defined.

(** * Further properties of the write path *)


Lemma to_sql_format_failure_run env df table_name creds sql_type schema index
    if_exists batch_size debug w txt e :
  sql_type ∈ SQL_TYPES -> if_exists ∈ IF_EXISTS_OPTIONS ->
  to_csv_text flat_file_kwargs df = Return txt ->
  build_format_file env df = Raise e ->
  to_sql env df table_name creds sql_type schema index if_exists batch_size debug w
  = (Raise e,
     {| files := <[fmt_path w txt := ""]>
                   (<[csv_path w := txt]> (<[csv_path w := ""]> (files w)));
        trace := trace w
                   ++ [CreateFile (csv_path w);
                       WriteFile (csv_path w);
                       Log "DEBUG" ("Saved dataframe to temp CSV file at " ++ csv_path w);
                       CreateFile (fmt_path w txt)] |}).
Proof.
  intros H1 H2 Htxt Hfmt.
  apply str_in_list_elem in H1. apply str_in_list_elem in H2.
  unfold to_sql. rewrite H1, H2. unfold py_assert.
  do 3 mstep.
  unfold df_to_csv. fold flat_file_kwargs. rewrite Htxt.
  do 3 mstep.
  rewrite Hfmt. erewrite bind_Raise by reflexivity.
  trace_norm. reflexivity.
Qed.

Lemma to_sql_invalid_run env df table_name creds sql_type schema index if_exists
    batch_size debug w :
  str_in_list sql_type SQL_TYPES && str_in_list if_exists IF_EXISTS_OPTIONS = false ->
  to_sql env df table_name creds sql_type schema index if_exists batch_size debug w
  = (Raise (AssertionError ""), w).
Proof.
  intros H. unfold to_sql.
  destruct (str_in_list sql_type SQL_TYPES); [|reflexivity].
  cbn [andb] in H. mstep. now rewrite H.
Qed.



Lemma io_events_log w level msg : io_events (logged w (Log level msg)) = io_events w.
Proof.
  unfold io_events, logged. cbn [trace]. rewrite List.filter_app.
  cbn [List.filter is_io]. apply app_nil_r.
Qed.

(** X6: with [if_exists="fail"] no call returns normally and none runs the
    query tool or the bulk copy, whatever the other arguments. *)
Theorem to_sql_fail_policy_runs_nothing
    env df table_name creds sql_type schema index batch_size debug w :
  exists e w',
    to_sql env df table_name creds sql_type schema index "fail" batch_size debug w
    = (Raise e, w')
    /\ io_events w' = io_events w.
Proof.
  destruct (str_in_list sql_type SQL_TYPES) eqn:Htype.
  - apply str_in_list_elem in Htype.
    destruct (df_columns df) as [|c cs] eqn:Hcols.
    + destruct (to_csv_text_flat df) as [txt Htxt].
      rewrite (to_sql_format_failure_run _ _ _ _ _ _ _ _ _ _ _ txt SchemaError Htype
                 fail_in_options Htxt)
        by (unfold build_format_file; now rewrite Hcols).
      eexists _, _. split; [reflexivity|].
      unfold io_events. cbn [trace]. rewrite List.filter_app.
      cbn [List.filter is_io]. apply app_nil_r.
    + destruct (to_sql_fail_run env df table_name creds sql_type
                  schema index batch_size debug w Htype) as (w' & H & Hio & _).
      { rewrite Hcols. discriminate. }
      eauto.
  - rewrite to_sql_invalid_run by (now rewrite Htype). eauto.
Qed.

(** X7: with [if_exists="append"] and [debug=False], [to_sql] runs the bulk
    copy once, inbound, on the flat file and the format file, which then hold
    the serialized dataset and the descriptor; the call returns normally when
    the exit status is zero and raises a BulkCopyError with the captured output
    and the status otherwise, and in both cases the two scratch files are gone
    when it ends. *)
Theorem to_sql_append_bulk_copy env df table_name creds sql_type schema index
    batch_size w txt :
  sql_type ∈ SQL_TYPES -> df_columns df <> [] ->
  to_csv_text flat_file_kwargs df = Return txt ->
  exists w',
    to_sql env df table_name creds sql_type schema index "append" batch_size false w
    = (let '(status, output, _) :=
         bcp_process env (to_sql_call table_name creds sql_type schema batch_size w txt)
           (files (staged w txt (format_file_text env df))) in
       if status =? 0 then Return tt else Raise (BulkCopyError output status), w')
    /\ files (staged w txt (format_file_text env df)) !! csv_path w = Some txt
    /\ files (staged w txt (format_file_text env df)) !! fmt_path w txt
       = Some (format_file_text env df)
    /\ files w' = files w
    /\ io_events w'
       = (io_events w
            ++ [RunBcp (to_sql_call table_name creds sql_type schema batch_size w txt)])%list.
Proof.
  intros Htype Hcols Htxt.
  destruct (to_sql_append_run env df table_name creds sql_type schema index batch_size
              w txt Htype Hcols Htxt) as (w' & Hrun & Hfiles & Hio).
  exists w'. split; [exact Hrun|]. split; [apply staged_csv|].
  split; [apply staged_fmt|]. split; assumption.
Qed.

Lemma people_text :
  to_csv_text flat_file_kwargs people = Return ("1|a" ++ NEWLINE ++ "2|b" ++ NEWLINE).
Proof. reflexivity. Qed.

Lemma to_sql_append_bulk_copy_witness :
  let txt := "1|a" ++ NEWLINE ++ "2|b" ++ NEWLINE in
  let env := sample_env 1 "Login failed" "" in
  exists w',
    to_sql env people "t" password_creds "table" "dbo" true "append" None false w0
    = (let '(status, output, _) :=
         bcp_process env (to_sql_call "t" password_creds "table" "dbo" None w0 txt)
           (files (staged w0 txt (format_file_text env people))) in
       if status =? 0 then Return tt else Raise (BulkCopyError output status), w')
    /\ files (staged w0 txt (format_file_text env people)) !! csv_path w0 = Some txt
    /\ files (staged w0 txt (format_file_text env people)) !! fmt_path w0 txt
       = Some (format_file_text env people)
    /\ files w' = files w0
    /\ io_events w'
       = (io_events w0
            ++ [RunBcp (to_sql_call "t" password_creds "table" "dbo" None w0 txt)])%list.
Proof.
  apply to_sql_append_bulk_copy; [exact table_in_types | discriminate | exact people_text].
Defined.

Lemma to_sql_try_replace env df table_name creds sql_type schema batch_size csvp fmtp w
    cmd server database username password :
  _get_sql_create_statement env df table_name schema = Return cmd ->
  lookup_attr "server" creds = Some server ->
  lookup_attr "database" creds = Some database ->
  lookup_attr "username" creds = Some username ->
  lookup_attr "password" creds = Some password ->
  to_sql_try env df table_name creds sql_type schema "replace" batch_size csvp fmtp w
  = match sqlcmd_result env (replace_call cmd server database username password) with
    | Return _ =>
        bcp env {| bc_sql_item := table_name; bc_direction := IN; bc_flat_file := csvp;
                   bc_format_file_path := Some fmtp; bc_creds := creds;
                   bc_sql_type := sql_type; bc_schema := schema;
                   bc_batch_size := batch_size |}
          (logged w (RunSqlcmd (replace_call cmd server database username password)))
    | Raise e =>
        (Raise e, logged w (RunSqlcmd (replace_call cmd server database username password)))
    end.
Proof.
  intros Hcmd Hs Hd Hu Hp.
  unfold to_sql_try. cbn [String.eqb Ascii.eqb Bool.eqb].
  unfold bind at 1. unfold bind at 1. unfold lift_outcome at 1. rewrite Hcmd.
  unfold bind at 1. rewrite getattr_run, Hs.
  unfold bind at 1. rewrite getattr_run, Hd.
  unfold bind at 1. rewrite getattr_run, Hu.
  unfold bind at 1. rewrite getattr_run, Hp.
  fold (replace_call cmd server database username password).
  unfold sqlcmd, bind, emit, lift_outcome. cbn [files trace].
  destruct (sqlcmd_result env _); reflexivity.
Qed.

(** X8: with [if_exists="replace"], a credential that has all four
    attributes and [debug=False], [to_sql] runs the query tool on the
    generated CREATE statement with the credential's server, database,
    username and password, and only then the bulk copy; when the query tool
    fails its error reaches the caller, no bulk copy is run, and the scratch
    files are gone all the same. *)
Theorem to_sql_replace_creates_then_copies env df table_name creds sql_type schema index
    batch_size w txt cmd server database username password :
  sql_type ∈ SQL_TYPES -> df_columns df <> [] ->
  to_csv_text flat_file_kwargs df = Return txt ->
  _get_sql_create_statement env df table_name schema = Return cmd ->
  lookup_attr "server" creds = Some server ->
  lookup_attr "database" creds = Some database ->
  lookup_attr "username" creds = Some username ->
  lookup_attr "password" creds = Some password ->
  exists w',
    to_sql env df table_name creds sql_type schema index "replace" batch_size false w
    = (match sqlcmd_result env (replace_call cmd server database username password) with
       | Return _ =>
           let '(status, output, _) :=
             bcp_process env (to_sql_call table_name creds sql_type schema batch_size w txt)
               (files (staged w txt (format_file_text env df))) in
           if status =? 0 then Return tt else Raise (BulkCopyError output status)
       | Raise e => Raise e
       end, w')
    /\ files w' = files w
    /\ io_events w'
       = (io_events w
            ++ RunSqlcmd (replace_call cmd server database username password)
               :: match sqlcmd_result env
                          (replace_call cmd server database username password) with
                  | Return _ =>
                      [RunBcp (to_sql_call table_name creds sql_type schema batch_size w txt)]
                  | Raise _ => []
                  end)%list.
Proof.
  intros Htype Hcols Htxt Hcmd Hs Hd Hu Hp.
  destruct (to_sql_cleanup_after_staging env df table_name creds sql_type schema index
              "replace" batch_size false w txt (format_file_text env df) Htype
              replace_in_options Htxt (build_format_file_columns env df Hcols))
    as (w' & Hrun & Hfiles & Hio).
  rewrite (to_sql_try_replace _ _ _ _ _ _ _ _ _ _ cmd server database username password
             Hcmd Hs Hd Hu Hp) in Hrun, Hio.
  fold (to_sql_call table_name creds sql_type schema batch_size w txt) in Hrun, Hio.
  exists w'. split; [|split; [exact Hfiles|]].
  - rewrite Hrun. destruct (sqlcmd_result env _); [|reflexivity].
    rewrite bcp_in_run by reflexivity. cbn [fst files logged].
    destruct (bcp_process env _ _) as [[status output] data]. reflexivity.
  - rewrite Hio. destruct (sqlcmd_result env _).
    + rewrite bcp_in_run by reflexivity. cbn [snd].
      unfold io_events at 1. unfold logged at 1. cbn [trace].
      rewrite List.filter_app. cbn [List.filter is_io].
      unfold io_events at 1. unfold logged at 1. cbn [trace].
      rewrite List.filter_app. cbn [List.filter is_io].
      fold (io_events (staged w txt (format_file_text env df))).
      rewrite io_events_staged. now rewrite <- app_assoc.
    + cbn [snd]. unfold io_events at 1. unfold logged at 1. cbn [trace].
      rewrite List.filter_app. cbn [List.filter is_io].
      fold (io_events (staged w txt (format_file_text env df))).
      now rewrite io_events_staged.
Qed.

Lemma to_sql_replace_creates_then_copies_witness :
  let env := outcome_env (Return tt) (Return ["x"; "y"])
               (Raise (ExternalError "table is locked")) 0 "" "" in
  exists w',
    to_sql env people "t" password_creds "table" "dbo" true "replace" None false w0
    = (Raise (ExternalError "table is locked"), w')
    /\ files w' = files w0
    /\ io_events w'
       = [RunSqlcmd (replace_call "CREATE TABLE dbo.t" (AStr "srv") (AStr "db")
                       (AStr "sa") (AStr "pw"))].
Proof.
  exact (to_sql_replace_creates_then_copies
           (outcome_env (Return tt) (Return ["x"; "y"])
              (Raise (ExternalError "table is locked")) 0 "" "")
           people "t" password_creds "table" "dbo" true None w0
           ("1|a" ++ NEWLINE ++ "2|b" ++ NEWLINE) "CREATE TABLE dbo.t"
           (AStr "srv") (AStr "db") (AStr "sa") (AStr "pw")
           table_in_types ltac:(discriminate) people_text eq_refl
           eq_refl eq_refl eq_refl eq_refl).
Defined.

(** X9: with [debug=True], once both scratch files are written, [to_sql]
    ends with both still in place, the flat file holding the serialized
    dataset and the format file the descriptor, and its last log line gives
    the two paths; this holds whatever the policy and the bulk copy come
    to. *)
Theorem to_sql_debug_keeps_scratch_files env df table_name creds sql_type schema index
    if_exists batch_size w txt :
  sql_type ∈ SQL_TYPES -> if_exists ∈ IF_EXISTS_OPTIONS -> df_columns df <> [] ->
  to_csv_text flat_file_kwargs df = Return txt ->
  exists r w2,
    to_sql env df table_name creds sql_type schema index if_exists batch_size true w
    = (r, logged w2
            (Log "DEBUG"
               ("`to_sql` DEBUG mode, not deleting the files. CSV file is at "
                  ++ csv_path w ++ ", format file is at " ++ fmt_path w txt)))
    /\ files w !! csv_path w = None
    /\ files w !! fmt_path w txt = None
    /\ files w2 !! csv_path w = Some txt
    /\ files w2 !! fmt_path w txt = Some (format_file_text env df).
Proof.
  intros H1 H2 Hcols Htxt.
  rewrite (to_sql_staged _ _ _ _ _ _ _ _ _ _ _ txt (format_file_text env df))
    by (try assumption; now apply build_format_file_columns).
  unfold try_finally.
  pose proof (to_sql_try_files env df table_name creds sql_type schema if_exists
                batch_size (csv_path w) (fmt_path w txt)
                (staged w txt (format_file_text env df))) as Hf.
  destruct (to_sql_try _ _ _ _ _ _ _ _ _ _ _) as [r w2]. cbn [snd] in Hf.
  rewrite to_sql_finally_debug. exists r, w2.
  split; [reflexivity|]. split; [apply csv_path_fresh|]. split; [apply fmt_path_fresh|].
  rewrite Hf. split; [apply staged_csv | apply staged_fmt].
Qed.

Lemma to_sql_debug_keeps_scratch_files_witness :
  let txt := "1|a" ++ NEWLINE ++ "2|b" ++ NEWLINE in
  exists r w2,
    to_sql (sample_env 1 "Login failed" "") people "t" password_creds "table" "dbo" true
      "append" None true w0
    = (r, logged w2
            (Log "DEBUG"
               ("`to_sql` DEBUG mode, not deleting the files. CSV file is at "
                  ++ csv_path w0 ++ ", format file is at " ++ fmt_path w0 txt)))
    /\ files w0 !! csv_path w0 = None
    /\ files w0 !! fmt_path w0 txt = None
    /\ files w2 !! csv_path w0 = Some txt
    /\ files w2 !! fmt_path w0 txt = Some "9.0".
Proof.
  apply (to_sql_debug_keeps_scratch_files (sample_env 1 "Login failed" "") people "t"
           password_creds "table" "dbo" true "append" None w0);
    [exact table_in_types | exact append_in_options | discriminate | exact people_text].
Defined.

Lemma csv_write_char_delimiter_needs_escape :
  csv_write_char
    {| sep := DELIMITER; header := false; index := false; quoting := QUOTE_NONE;
       quotechar := QUOTECHAR; line_terminator := NEWLINE; doublequote := true;
       escapechar := None |} DELIMITER
  = Raise (CsvError "need to escape, but no escapechar set").
Proof. reflexivity. Qed.


(** * Further properties of the read path *)

(** What [read_sql] comes to when a check fails or an attribute is missing:
    an error, in the world it started from. *)
Lemma read_sql_stopped env table_name creds sql_type schema version batch_size w :
  str_in_list sql_type SQL_TYPES = false
  \/ (version =? 13) || (version =? 17) = false
  \/ py_in ";" table_name = true
  \/ lookup_attr "server" creds = None
  \/ lookup_attr "database" creds = None
  \/ lookup_attr "username" creds = None
  \/ lookup_attr "password" creds = None ->
  exists e, read_sql env table_name creds sql_type schema version batch_size w
            = (Raise e, w).
Proof.
  intros H. unfold read_sql.
  destruct (str_in_list sql_type SQL_TYPES); [|eexists; reflexivity].
  destruct H as [H|H]; [discriminate|].
  destruct ((version =? 13) || (version =? 17)); [|eexists; reflexivity].
  destruct H as [H|H]; [discriminate|].
  unfold py_assert. do 2 mstep.
  destruct (py_in ";" table_name); [eexists; reflexivity|].
  destruct H as [H|H]; [discriminate|].
  unfold bind at 1. rewrite getattr_run.
  destruct (lookup_attr "server" creds); [|eexists; reflexivity].
  destruct H as [H|H]; [discriminate|].
  unfold bind at 1. rewrite getattr_run.
  destruct (lookup_attr "database" creds); [|eexists; reflexivity].
  destruct H as [H|H]; [discriminate|].
  unfold bind at 1. rewrite getattr_run.
  destruct (lookup_attr "username" creds); [|eexists; reflexivity].
  destruct H as [H|H]; [discriminate|].
  unfold bind at 1. rewrite getattr_run.
  destruct (lookup_attr "password" creds); [discriminate|eexists; reflexivity].
Qed.

Lemma version_ok_spec version :
  (version =? 13) || (version =? 17) = true -> version = 13 \/ version = 17.
Proof. intros H. apply orb_true_iff in H as [H|H]; apply Z.eqb_eq in H; auto. Qed.

(** The two lemmas cover every call. *)
Lemma read_sql_cases env table_name creds sql_type schema version batch_size w :
  (exists e, read_sql env table_name creds sql_type schema version batch_size w
             = (Raise e, w))
  \/ (sql_type ∈ SQL_TYPES /\ (version = 13 \/ version = 17)
      /\ py_in ";" table_name = false
      /\ exists server database username password,
           lookup_attr "server" creds = Some server
           /\ lookup_attr "database" creds = Some database
           /\ lookup_attr "username" creds = Some username
           /\ lookup_attr "password" creds = Some password).
Proof.
  destruct (str_in_list sql_type SQL_TYPES) eqn:E1;
    [|left; apply read_sql_stopped; auto].
  destruct ((version =? 13) || (version =? 17)) eqn:E2;
    [|left; apply read_sql_stopped; auto].
  destruct (py_in ";" table_name) eqn:E3; [left; apply read_sql_stopped; auto|].
  destruct (lookup_attr "server" creds) as [s|] eqn:E4;
    [|left; apply read_sql_stopped; auto 10].
  destruct (lookup_attr "database" creds) as [d|] eqn:E5;
    [|left; apply read_sql_stopped; auto 10].
  destruct (lookup_attr "username" creds) as [u|] eqn:E6;
    [|left; apply read_sql_stopped; auto 10].
  destruct (lookup_attr "password" creds) as [p|] eqn:E7;
    [|left; apply read_sql_stopped; auto 10].
  right. split; [now apply str_in_list_elem|]. split; [now apply version_ok_spec|].
  split; [reflexivity|]. exists s, d, u, p. auto.
Qed.


(** X12: a [read_sql] call with an object kind outside {table, view}, or
    with a driver version other than 13 and 17, raises an AssertionError (for
    the driver version with the message of the source) and leaves the world
    as it was: nothing is connected, queried or copied. *)
Theorem read_sql_rejects_kind_and_driver env table_name creds sql_type schema version
    batch_size w :
  sql_type ∉ SQL_TYPES \/ (version <> 13 /\ version <> 17) ->
  read_sql env table_name creds sql_type schema version batch_size w
  = (Raise (AssertionError
              (if str_in_list sql_type SQL_TYPES
               then "SQL Server ODBC Driver must be either 13 or 17" else "")), w)
  /\ kind_of (AssertionError
                (if str_in_list sql_type SQL_TYPES
                 then "SQL Server ODBC Driver must be either 13 or 17" else ""))
     = ValidationKind.
Proof.
  intros H. split; [|reflexivity]. unfold read_sql.
  destruct (str_in_list sql_type SQL_TYPES) eqn:E; [|reflexivity].
  destruct H as [H | [H13 H17]]; [apply str_in_list_elem in E; contradiction|].
  apply Z.eqb_neq in H13. apply Z.eqb_neq in H17. now rewrite H13, H17.
Qed.

Lemma read_sql_rejects_kind_and_driver_witness :
  read_sql (sample_env 0 "" "") "t" password_creds "view" "dbo" 11 (Some 10000) w0
  = (Raise (AssertionError "SQL Server ODBC Driver must be either 13 or 17"), w0)
  /\ kind_of (AssertionError "SQL Server ODBC Driver must be either 13 or 17")
     = ValidationKind.
Proof.
  apply (read_sql_rejects_kind_and_driver (sample_env 0 "" "") "t" password_creds
           "view" "dbo" 11 (Some 10000) w0).
  right. split; discriminate.
Defined.

(** X13: a credential that lacks any of the attributes server, database,
    username, password never gets [read_sql] as far as a connection: every
    such call raises in the world it started from. *)
Theorem read_sql_needs_all_attributes env table_name creds sql_type schema version
    batch_size w :
  hasattr creds "server" && hasattr creds "database"
    && hasattr creds "username" && hasattr creds "password" = false ->
  exists e,
    read_sql env table_name creds sql_type schema version batch_size w = (Raise e, w).
Proof.
  intros H. apply read_sql_stopped. unfold hasattr in H.
  destruct (lookup_attr "server" creds); [|auto 10].
  destruct (lookup_attr "database" creds); [|auto 10].
  destruct (lookup_attr "username" creds); [|auto 10].
  destruct (lookup_attr "password" creds); [discriminate|auto 10].
Qed.

Lemma read_sql_needs_all_attributes_witness :
  exists e,
    read_sql (sample_env 0 "" "") "t" [("server", AStr "srv"); ("username", AStr "sa");
                                       ("password", AStr "pw")]
      "table" "dbo" 13 None w0 = (Raise e, w0).
Proof. apply read_sql_needs_all_attributes. reflexivity. Defined.

(** X14: when the connection cannot be opened, or the preview query fails,
    [read_sql] raises that error and has done nothing but try the connection
    (and, after a successful connection, the query): no scratch file is
    created, no file is touched, the bulk copy is not run. *)
Theorem read_sql_stops_before_bulk_copy env table_name creds sql_type schema version
    batch_size w server database username password e :
  sql_type ∈ SQL_TYPES -> version = 13 \/ version = 17 ->
  (forall a b, table_name <> a ++ ";" ++ b) ->
  lookup_attr "server" creds = Some server ->
  lookup_attr "database" creds = Some database ->
  lookup_attr "username" creds = Some username ->
  lookup_attr "password" creds = Some password ->
  odbc_connect env (connection_string version server database username password)
    = Raise e
  \/ (odbc_connect env (connection_string version server database username password)
        = Return tt
      /\ query_columns env
           (connection_string version server database username password)
           (preview_query table_name) = Raise e) ->
  read_sql env table_name creds sql_type schema version batch_size w
  = (Raise e,
     {| files := files w;
        trace :=
          trace w
            ++ match odbc_connect env
                       (connection_string version server database username password) with
               | Raise _ =>
                   [Connect (connection_string version server database username password)]
               | Return _ =>
                   [Connect (connection_string version server database username password);
                    Query (preview_query table_name)]
               end |}).
Proof.
  intros Htype Hver Hsep Hs Hd Hu Hp Hfail.
  rewrite (read_sql_checked _ _ _ _ _ _ _ _ server database username password)
    by (try assumption; now apply py_in_false).
  cbv zeta. destruct Hfail as [-> | [-> ->]]; unfold logged; trace_norm; reflexivity.
Qed.

Lemma not_separated_t : forall a b, "t" <> a ++ ";" ++ b.
Proof. intros a b E. pose proof (py_in_app a ";" b) as H. rewrite <- E in H. discriminate H. Qed.

Lemma read_sql_stops_before_bulk_copy_witness :
  read_sql (outcome_env (Raise (ExternalError "Login timeout expired")) (Return ["x"])
              (Return tt) 0 "" "")
    "t" password_creds "table" "dbo" 17 None w0
  = (Raise (ExternalError "Login timeout expired"),
     {| files := files w0;
        trace := [Connect (connection_string 17 (AStr "srv") (AStr "db") (AStr "sa")
                             (AStr "pw"))] |}).
Proof.
  apply (read_sql_stops_before_bulk_copy
           (outcome_env (Raise (ExternalError "Login timeout expired")) (Return ["x"])
              (Return tt) 0 "" "")
           "t" password_creds "table" "dbo" 17 None w0
           (AStr "srv") (AStr "db") (AStr "sa") (AStr "pw"));
    [exact table_in_types | right; reflexivity | exact not_separated_t
    | reflexivity | reflexivity | reflexivity | reflexivity | left; reflexivity].
Defined.



Lemma length_infer_column fields : length (infer_column fields) = length fields.
Proof. unfold infer_column. repeat case_match; apply length_map. Qed.

Lemma Forall_imap_columns (f : nat -> list cell) (names : list string) (n : nat) :
  (forall i, length (f i) = n) ->
  Forall (fun col : string * list cell => length (snd col) = n)
    (imap (fun i name => (name, f i)) names).
Proof.
  revert f. induction names as [|x names IH]; intros f Hf; cbn [imap]; constructor.
  - apply Hf.
  - apply (IH (fun i => f (S i))). intros i. apply Hf.
Qed.

Lemma length_range_index n : length (range_index n) = n.
Proof. unfold range_index. now rewrite length_map, length_seq. Qed.

(** The shape of a dataset parsed without an index column: the given names
    in order, the row labels 0, 1, ..., one cell per row in every column. *)
Lemma read_csv_text_shape k txt df :
  rc_index_col k = None ->
  read_csv_text k txt = Return df ->
  map fst (df_columns df) = rc_names k
  /\ df_index df = range_index (nrows df)
  /\ Forall (fun col => length (snd col) = nrows df) (df_columns df).
Proof.
  intros Hidx H. split; [now apply (read_csv_text_names k txt)|].
  unfold read_csv_text in H. rewrite Hidx in H.
  destruct (validate_names _); [|discriminate].
  destruct (tokenize_all _ _ txt) as [rows|e]; [|discriminate].
  destruct (check_field_counts _ _); [|discriminate].
  injection H as <-. unfold nrows. cbn [df_index df_columns].
  rewrite length_range_index. split; [reflexivity|].
  apply (Forall_imap_columns (fun i => infer_column (column_fields _ i))).
  intros i. rewrite length_infer_column. unfold column_fields. apply length_map.
Qed.

(** X16: whenever [read_sql] returns a dataset, the preview query gave the
    column names, and the dataset has exactly these names in this order, the
    row labels 0, 1, ... and one cell per row in every column. *)
Theorem read_sql_result_shape env table_name creds sql_type schema version batch_size
    w df w' :
  read_sql env table_name creds sql_type schema version batch_size w = (Return df, w') ->
  exists server database username password cols,
    lookup_attr "server" creds = Some server
    /\ lookup_attr "database" creds = Some database
    /\ lookup_attr "username" creds = Some username
    /\ lookup_attr "password" creds = Some password
    /\ query_columns env (connection_string version server database username password)
         (preview_query table_name) = Return cols
    /\ map fst (df_columns df) = cols
    /\ df_index df = range_index (nrows df)
    /\ Forall (fun col => length (snd col) = nrows df) (df_columns df).
Proof.
  intros H.
  destruct (read_sql_cases env table_name creds sql_type schema version batch_size w)
    as [[e He] | (Htype & Hver & Hsep & s & d & u & p & Hs & Hd & Hu & Hp)];
    [rewrite He in H; discriminate|].
  rewrite (read_sql_checked _ _ _ _ _ _ _ _ s d u p) in H by assumption.
  cbv zeta in H.
  destruct (odbc_connect env _); [|discriminate].
  destruct (query_columns env _ _) as [cols|] eqn:Hcols; [|discriminate].
  destruct (bcp_process env _ _) as [[status output] data].
  destruct (status =? 0); [|discriminate].
  injection H as H _.
  apply read_csv_text_shape in H as (Hn & Hi & Hl); [|reflexivity].
  exists s, d, u, p, cols. repeat split; assumption.
Qed.

Lemma read_sql_result_shape_witness :
  let df := {| df_index := [CInt 0; CInt 1];
               df_columns := [("x", [CInt 1; CInt 3]); ("y", [CInt 2; CInt 4])] |} in
  exists server database username password cols,
    lookup_attr "server" password_creds = Some server
    /\ lookup_attr "database" password_creds = Some database
    /\ lookup_attr "username" password_creds = Some username
    /\ lookup_attr "password" password_creds = Some password
    /\ query_columns (sample_env 0 "" ("1,2" ++ NEWLINE ++ "3,4" ++ NEWLINE))
         (connection_string 17 server database username password)
         (preview_query "t") = Return cols
    /\ map fst (df_columns df) = cols
    /\ df_index df = range_index (nrows df)
    /\ Forall (fun col => length (snd col) = nrows df) (df_columns df).
Proof.
  apply (read_sql_result_shape (sample_env 0 "" ("1,2" ++ NEWLINE ++ "3,4" ++ NEWLINE))
           "t" password_creds "table" "dbo" 17 (Some 10000) w0 _
           {| files := files w0;
              trace :=
                [Connect (connection_string 17 (AStr "srv") (AStr "db") (AStr "sa")
                            (AStr "pw"));
                 Query (preview_query "t");
                 CreateFile (csv_path w0);
                 RunBcp (read_sql_call "t" password_creds "table" "dbo" (Some 10000) w0);
                 ReadFile (csv_path w0);
                 RemoveFile (csv_path w0)] |}).
  vm_compute. reflexivity.
Defined.

(** * What the write path runs *)

Lemma io_events_run w e : is_io e = true -> io_events (logged w e) = (io_events w ++ [e])%list.
Proof.
  intros H. unfold io_events, logged. cbn [trace]. rewrite List.filter_app.
  cbn [List.filter]. now rewrite H.
Qed.

Lemma to_sql_try_events env df table_name creds sql_type schema if_exists batch_size
    csvp fmtp w :
  exists l,
    io_events (snd (to_sql_try env df table_name creds sql_type schema if_exists
                      batch_size csvp fmtp w)) = (io_events w ++ l)%list
    /\ tool_runs l
    /\ (if_exists = "fail" -> l = []).
Proof.
  unfold to_sql_try.
  destruct (String.eqb if_exists "fail") eqn:Efail.
  { exists []. rewrite app_nil_r. split; [reflexivity|]. split; [now left|reflexivity]. }
  assert (Hnf : if_exists = "fail" -> False)
    by (intros ->; discriminate Efail).
  destruct (String.eqb if_exists "replace").
  - unfold bind at 1. unfold bind at 1. unfold lift_outcome, _get_sql_create_statement.
    destruct (sql_create_statement env df table_name schema) as [cmd|e];
      [|exists []; rewrite app_nil_r; split; [reflexivity|]; split; [now left|tauto]].
    unfold bind at 1. rewrite getattr_run.
    destruct (lookup_attr "server" creds);
      [|exists []; rewrite app_nil_r; split; [reflexivity|]; split; [now left|tauto]].
    unfold bind at 1. rewrite getattr_run.
    destruct (lookup_attr "database" creds);
      [|exists []; rewrite app_nil_r; split; [reflexivity|]; split; [now left|tauto]].
    unfold bind at 1. rewrite getattr_run.
    destruct (lookup_attr "username" creds);
      [|exists []; rewrite app_nil_r; split; [reflexivity|]; split; [now left|tauto]].
    unfold bind at 1. rewrite getattr_run.
    destruct (lookup_attr "password" creds);
      [|exists []; rewrite app_nil_r; split; [reflexivity|]; split; [now left|tauto]].
    unfold sqlcmd. unfold bind at 1. unfold emit, lift_outcome.
    match goal with |- context [sqlcmd_result env ?c] =>
      set (sc := c); destruct (sqlcmd_result env sc) end.
    + rewrite bcp_in_run by reflexivity. cbn [snd files trace].
      match goal with |- context [RunBcp ?c] => set (bc := c) end.
      exists [RunSqlcmd sc; RunBcp bc]. split; [|split; [|tauto]].
      * rewrite io_events_run by reflexivity. unfold io_events. cbn [trace].
        rewrite List.filter_app. cbn [List.filter is_io]. now rewrite <- app_assoc.
      * right. right. right. exists sc, bc. split; reflexivity.
    + exists [RunSqlcmd sc]. split; [|split; [|tauto]].
      * cbn [snd]. unfold io_events. cbn [trace]. now rewrite List.filter_app.
      * right. right. left. now exists sc.
  - assert (E : forall c : M unit,
               ((if String.eqb if_exists "append" then ret tt else ret tt);; c)
               = (ret tt;; c))
      by (intros; destruct (String.eqb if_exists "append"); reflexivity).
    rewrite E. mstep. rewrite bcp_in_run by reflexivity. cbn [snd].
    match goal with |- context [RunBcp ?c] => set (bc := c) end.
    exists [RunBcp bc]. split; [now apply io_events_run|]. split; [|tauto].
    right. left. exists bc. split; reflexivity.
Qed.

(** X17: whatever its arguments and however it ends, a [to_sql] call opens
    no connection and runs no query of its own; what it runs is at most one
    query-tool run followed by at most one bulk copy, the bulk copy always
    inbound, and nothing at all when [if_exists="fail"]. *)
Theorem to_sql_tool_runs env df table_name creds sql_type schema index if_exists
    batch_size debug w :
  exists l,
    io_events (snd (to_sql env df table_name creds sql_type schema index if_exists
                      batch_size debug w)) = (io_events w ++ l)%list
    /\ tool_runs l
    /\ (if_exists = "fail" -> l = []).
Proof.
  destruct (str_in_list sql_type SQL_TYPES && str_in_list if_exists IF_EXISTS_OPTIONS)
    eqn:Hvalid.
  - apply andb_true_iff in Hvalid as [H1 H2].
    apply str_in_list_elem in H1. apply str_in_list_elem in H2.
    destruct (to_csv_text_flat df) as [txt Htxt].
    destruct (build_format_file env df) as [fmt|e] eqn:Hfmt.
    + destruct (to_sql_cleanup_after_staging env df table_name creds sql_type schema
                  index if_exists batch_size debug w txt fmt H1 H2 Htxt Hfmt)
        as (w' & -> & _ & Hio).
      cbn [snd]. rewrite Hio.
      destruct (to_sql_try_events env df table_name creds sql_type schema if_exists
                  batch_size (csv_path w) (fmt_path w txt) (staged w txt fmt))
        as (l & Hl & Hruns & Hfail).
      exists l. rewrite Hl, io_events_staged. auto.
    + rewrite (to_sql_format_failure_run _ _ _ _ _ _ _ _ _ _ _ txt e H1 H2 Htxt Hfmt).
      exists []. rewrite app_nil_r. split; [|split; [now left|reflexivity]].
      cbn [snd]. unfold io_events. cbn [trace]. rewrite List.filter_app.
      cbn [List.filter is_io]. apply app_nil_r.
  - rewrite to_sql_invalid_run by assumption.
    exists []. rewrite app_nil_r. split; [reflexivity|]. split; [now left|reflexivity].
Qed.
